(** * supercharged: null-aware z-score anomaly detection over Arrow columns

    A shallow embedding of the Go sources of TFMV/supercharged and the
    properties of its column extractor and anomaly detector.

    - [Arrow], [ArrayLib], [Csv], [Compute]: the Arrow values and library
      calls the sources use, as far as the sources observe them.
    - [Main]: src/super.go (package main): [ReadAll], [ReadSingleColumn]
      and the direct two-pass [DetectAnomalies].
    - [Csvreader]: src/unnamed/part_005 (package csvreader): the streaming
      [ReadSingleColumn].
    - [Supercharged], [SuperchargedSqrt]: src/unnamed/part_008 and part_007
      (package supercharged): [DetectAnomalies] on Arrow compute kernels.
    - [Exprs], [Expression]: src/unnamed/part_006 (package supercharged):
      [DetectAnomalies] as two expressions handed to the expression
      executor, whose answers are an argument of the detector.
    - [Cmd]: src/unnamed/part_002 (package cmd): the analyze command.
    - [Spec]: the statistics of the specification, to state the properties.

    Go's [float64] is IEEE 754 binary64 with round-to-nearest-even.  It is
    modelled by Rocq's primitive [float], the same format with the same
    rounding, every operation rounded on its own: the Go compiler may fuse
    [x*y + z] into one rounding on some targets (not on amd64 by default),
    which is not modelled.  Decimal literals denote the nearest binary64
    value, as Go constants do. *)

From Stdlib Require Import Floats ZArith List Bool Lia String.
From Stdlib Require Uint63.
Import ListNotations.

Set Warnings "-inexact-float,-register-all".

(** ** Arrow arrays and builders *)

Module Arrow.

(** The zero value of a Go type: what a freshly allocated buffer holds. *)
Class GoZero (A : Type) := go_zero : A.
#[global] Instance float_zero : GoZero float := 0%float.
#[global] Instance bool_zero : GoZero bool := false.
#[global] Instance int_zero : GoZero Z := 0%Z.
#[global] Instance string_zero : GoZero string := EmptyString.

(** One row of an Arrow array: its bit of the validity bitmap and its cell
    of the value buffer.  The cell of a null row still holds some value. *)
Record slot (A : Type) := Slot { valid : bool; raw : A }.
Arguments Slot {A} _ _.
Arguments valid {A} _.
Arguments raw {A} _.

Definition array (A : Type) := list (slot A).

Definition Len {A} (a : array A) : nat := List.length a.

(** [a.IsNull(i)] and [a.Value(i)].  Every loop of the sources is bounded
    by [Len], so the out-of-range default is never observed. *)
Definition IsNull {A} (a : array A) (i : nat) : bool :=
  match nth_error a i with
  | Some s => negb (valid s)
  | None => false
  end.

Definition Value {A} `{GoZero A} (a : array A) (i : nat) : A :=
  match nth_error a i with
  | Some s => raw s
  | None => go_zero
  end.

(** [array.NewFloat64Builder] / [array.NewBooleanBuilder]: the rows
    appended so far. *)
Definition Builder (A : Type) := list (slot A).
Definition NewBuilder {A} : Builder A := [].
Definition Append {A} (b : Builder A) (v : A) : Builder A := b ++ [Slot true v].
Definition AppendNull {A} `{GoZero A} (b : Builder A) : Builder A :=
  b ++ [Slot false go_zero].
Definition NewArray {A} (b : Builder A) : array A := b.

(** Rows written as literals: [Some v] a valid cell, [None] a null. *)
Definition of_options {A} `{GoZero A} (l : list (option A)) : array A :=
  map (fun o => match o with
                | Some v => Slot true v
                | None => Slot false go_zero
                end) l.

Definition of_values {A} (l : list A) : array A := map (Slot true) l.

(** [arrow.Array]: an array of one of the column types a CSV schema can
    name (the narrower numeric types behave like [Int64Col] below). *)
Inductive Column : Type :=
| Float64Col (a : array float)
| Int64Col (a : array Z)
| StringCol (a : array string).

Definition ColLen (c : Column) : nat :=
  match c with
  | Float64Col a => Len a
  | Int64Col a => Len a
  | StringCol a => Len a
  end.

(** [arrow.Field], [arrow.Schema], [arrow.Record]. *)
Record Field : Type := { Name : string }.
Definition Schema := list Field.

Record RecordBatch : Type :=
  { RecSchema : Schema; NumRows : nat; Columns : list Column }.

Definition NumCols (r : RecordBatch) : nat := List.length (Columns r).

(** Every column of a record batch holds one cell per row. *)
Definition well_formed (r : RecordBatch) : Prop :=
  Forall (fun c => ColLen c = NumRows r) (Columns r).

End Arrow.

Import Arrow.

(** [for i := 0; i < n; i++ { s = body i s }] *)
Definition for_range {S : Type} (n : nat) (body : nat -> S -> S) (init : S) : S :=
  fold_left (fun s i => body i s) (seq 0 n) init.

(** [float64(n)] for a Go [int] that is a count of rows (0 <= n < 2^63). *)
Definition float64_of_int (n : Z) : float :=
  PrimFloat.of_uint63 (Uint63.of_Z n).

(** Go's [error] values that the modelled functions build or receive. *)
Inductive error : Type :=
| ErrEmptyColumn                      (* "empty column provided": the
                                         specification's EmptyInputError *)
| ErrNoValidValues                    (* "no valid values found in column":
                                         its NoValidDataError *)
| ErrNoRecords                        (* "no records found in CSV" *)
| ErrColumnNotFound (name : string)   (* "column '%s' not found in schema",
                                         "column %s not found" *)
| ErrColumnIndexOutOfRange (i : Z)    (* "column index %d out of range" *)
| ErrNoData (name : string)           (* "no data for column %s" *)
| ErrParse (row : nat)                (* what csv.Reader.Err() reports *)
| ErrReadingCSV (cause : error)       (* "error reading CSV: %w",
                                         "csv read error: %w" *)
| ErrNotFloat64                       (* "input must be Float64 array, got %T" *)
| ErrWrapped (what : string) (cause : error)
                                      (* "subtract computation: %w", ... *)
| ErrConcatEmpty                      (* array.Concatenate of no arrays *)
| ErrConcatTypes                      (* array.Concatenate of mixed types *)
| ErrDivideByZero                     (* compute: "divide by zero" *)
| ErrCanceled                         (* context.Canceled *)
| ErrDeadlineExceeded.                (* context.DeadlineExceeded *)

(** [context.Context], as far as a callee can observe it: [ctx.Err()]. *)
Record Context : Type := { ctx_err : option error }.
Definition Background : Context := {| ctx_err := None |}.
Definition Cancelled : Context := {| ctx_err := Some ErrCanceled |}.

(** ** The Arrow library calls the sources make

    The repository imports these from apache/arrow-go; they are modelled by
    what the sources can observe of them. *)

(** [array.Concatenate(chunks, mem)]: the rows of the chunks in order, each
    with its validity bit; an error for no chunk or for chunks of different
    types. *)
Module ArrayLib.

Fixpoint concat_into (acc : Column) (rest : list Column) : option Column :=
  match rest with
  | [] => Some acc
  | c :: rest' =>
      match acc, c with
      | Float64Col a, Float64Col b => concat_into (Float64Col (a ++ b)) rest'
      | Int64Col a, Int64Col b => concat_into (Int64Col (a ++ b)) rest'
      | StringCol a, StringCol b => concat_into (StringCol (a ++ b)) rest'
      | _, _ => None
      end
  end.

Definition Concatenate (arrs : list Column) : option Column * option error :=
  match arrs with
  | [] => (None, Some ErrConcatEmpty)
  | c :: rest =>
      match concat_into c rest with
      | Some out => (Some out, None)
      | None => (None, Some ErrConcatTypes)
      end
  end.

End ArrayLib.

(** [csv.Reader]: a cursor over the record batches the input parses into.
    [Next] advances to the next batch and reports whether there is one;
    [Record] ([Record_] here) is the batch under the cursor; [Err] is the
    error that stopped the reader, nil at a clean end of input.  The
    batches are produced in file order. *)
Module Csv.

Record Reader : Type :=
  { cur : option RecordBatch;      (* the batch under the cursor *)
    pending : list RecordBatch;    (* batches not yet read, in file order *)
    failure : option error;        (* the error the input ends in, if any *)
    err : option error }.          (* r.err *)

(** A reader opened on an input that parses into [batches] and then ends,
    cleanly or with [failure]. *)
Definition open (batches : list RecordBatch) (failure : option error) : Reader :=
  {| cur := None; pending := batches; failure := failure; err := None |}.

Definition Next (r : Reader) : bool * Reader :=
  match pending r with
  | rec :: rest =>
      (true, {| cur := Some rec; pending := rest;
                failure := failure r; err := err r |})
  | [] =>
      (false, {| cur := None; pending := [];
                 failure := None;
                 err := match err r with
                        | Some e => Some e
                        | None => failure r
                        end |})
  end.

Definition Record_ (r : Reader) : option RecordBatch := cur r.

Definition Err (r : Reader) : option error := err r.

End Csv.

(** ** src/super.go *)

Module Main.

Open Scope float_scope.

(** [CSVReader] (lines 19-23); the allocator plays no part in what the
    functions return.  Reference counts ([Retain]/[Release]) are not
    modelled: they decide when buffers are freed, not what they hold. *)
Record CSVReader : Type := { schema : Schema; reader : Csv.Reader }.

(** [ReadAll] (lines 50-69): [for cr.reader.Next() { ... }].  Each turn
    of the loop consumes one pending batch, so [fuel] one above their
    number lets the loop reach the [Next] that returns false. *)
Fixpoint ReadAll_loop (fuel : nat) (rd : Csv.Reader)
    (records : list RecordBatch) : list RecordBatch * Csv.Reader :=
  match fuel with
  | O => (records, rd)
  | S fuel' =>
      let '(more, rd') := Csv.Next rd in
      if more then
        match Csv.Record_ rd' with
        | Some record => ReadAll_loop fuel' rd' (records ++ [record])
        | None => ReadAll_loop fuel' rd' records
        end
      else (records, rd')
  end.

Definition ReadAll (cr : CSVReader)
  : (list RecordBatch * option error) * CSVReader :=
  let '(records, rd) :=
    ReadAll_loop (S (List.length (Csv.pending (reader cr)))) (reader cr) [] in
  let cr' := {| schema := schema cr; reader := rd |} in
  match Csv.Err rd with
  | Some e => (([], Some (ErrReadingCSV e)), cr')
  | None => ((records, None), cr')
  end.

(** Lines 89-95: the index of the first field with the name, else -1. *)
Fixpoint find_column (fields : list Field) (columnName : string) (i : Z) : Z :=
  match fields with
  | [] => (-1)%Z
  | field :: rest =>
      if String.eqb (Name field) columnName then i
      else find_column rest columnName (i + 1)%Z
  end.

(** Lines 102-111: one chunk per record, or the first range error.
    [record.Column(columnIndex)] is in range after the test above it. *)
Fixpoint collect_chunks (records : list RecordBatch) (columnIndex : Z)
    (chunks : list Column) : list Column * option error :=
  match records with
  | [] => (chunks, None)
  | record :: rest =>
      if (columnIndex >=? Z.of_nat (NumCols record))%Z
      then ([], Some (ErrColumnIndexOutOfRange columnIndex))
      else
        let column :=
          nth (Z.to_nat columnIndex) (Columns record) (Float64Col []) in
        collect_chunks rest columnIndex (chunks ++ [column])
  end.

(** [ReadSingleColumn] (lines 72-126).  Both exits at lines 114-125
    return [chunks[0]]; the chunked array of line 120 is built and
    released without being read. *)
Definition ReadSingleColumn (cr : CSVReader) (columnName : string)
  : (option Column * option error) * CSVReader :=
  let '((records, err), cr') := ReadAll cr in
  match err with
  | Some e => ((None, Some e), cr')
  | None =>
      if Nat.eqb (List.length records) 0
      then ((None, Some ErrNoRecords), cr')
      else
        let columnIndex := find_column (schema cr) columnName 0%Z in
        if (columnIndex =? -1)%Z
        then ((None, Some (ErrColumnNotFound columnName)), cr')
        else
          let '(chunks, err) := collect_chunks records columnIndex [] in
          match err with
          | Some e => ((None, Some e), cr')
          | None =>
              if Nat.eqb (List.length chunks) 1
              then ((nth_error chunks 0, None), cr')
              else ((nth_error chunks 0, None), cr')
          end
  end.

(** Step 1 of [DetectAnomalies] (lines 194-202): sum and count of the
    non-null rows. *)
Definition sum_and_count (col : array float) : float * Z :=
  for_range (Len col)
    (fun i '(sum, validCount) =>
       if negb (IsNull col i)
       then (sum + Value col i, (validCount + 1)%Z)
       else (sum, validCount))
    (0, 0%Z).

(** Step 2 (lines 210-221): the differences from the mean, nulls kept. *)
Definition build_diffs (col : array float) (mean : float) : array float :=
  NewArray
    (for_range (Len col)
       (fun i diffBuilder =>
          if IsNull col i
          then AppendNull diffBuilder
          else Append diffBuilder (Value col i - mean))
       NewBuilder).

(** Step 3 (lines 225-231): the sum of the squared differences. *)
Definition sum_squares (diffs : array float) : float :=
  for_range (Len diffs)
    (fun i sumSquares =>
       if negb (IsNull diffs i)
       then let diff := Value diffs i in sumSquares + diff * diff
       else sumSquares)
    0.

(** Lines 239-242: the all-false mask of the zero-deviation branch. *)
Definition false_mask (col : array float) : array bool :=
  NewArray
    (for_range (Len col) (fun _ maskBuilder => Append maskBuilder false)
       NewBuilder).

(** Step 4 (lines 252-263). *)
Definition build_zscores (diffs : array float) (stddev : float) : array float :=
  NewArray
    (for_range (Len diffs)
       (fun i zscoreBuilder =>
          if IsNull diffs i
          then AppendNull zscoreBuilder
          else
            let zscore := abs (Value diffs i) / stddev in
            Append zscoreBuilder zscore)
       NewBuilder).

(** Step 5 (lines 267-277): [zscores.Value(i) > threshold]. *)
Definition build_mask (zscores : array float) (threshold : float) : array bool :=
  NewArray
    (for_range (Len zscores)
       (fun i maskBuilder =>
          if IsNull zscores i
          then Append maskBuilder false
          else Append maskBuilder (threshold <? Value zscores i))
       NewBuilder).

(** Step 6 (lines 280-288). *)
Definition extract_anomalies (col : array float) (mask : array bool)
  : array float :=
  NewArray
    (for_range (Len col)
       (fun i anomalyBuilder =>
          if negb (IsNull mask i) && Value mask i && negb (IsNull col i)
          then Append anomalyBuilder (Value col i)
          else anomalyBuilder)
       NewBuilder).

(** [DetectAnomalies] (lines 185-291).  The Go function returns the
    triple [(mask, anomalies, err)]; a nil pointer is [None]. *)
Definition DetectAnomalies (ctx : Context) (col : array float)
    (threshold : float)
  : option (array bool) * option (array float) * option error :=
  if Nat.eqb (Len col) 0 then (None, None, Some ErrEmptyColumn) else
  let '(sum, validCount) := sum_and_count col in
  if Z.eqb validCount 0 then (None, None, Some ErrNoValidValues) else
  let mean := sum / float64_of_int validCount in
  let diffs := build_diffs col mean in
  let sumSquares := sum_squares diffs in
  let variance := sumSquares / float64_of_int validCount in
  let stddev := PrimFloat.sqrt variance in
  if stddev =? 0 then
    let mask := false_mask col in
    let anomalies : array float := NewArray NewBuilder in
    (Some mask, Some anomalies, None)
  else
  let zscores := build_zscores diffs stddev in
  let mask := build_mask zscores threshold in
  let anomalies := extract_anomalies col mask in
  (Some mask, Some anomalies, None).

(** The values the locals [mean] (line 208) and [stddev] (line 233) of
    [DetectAnomalies] take on a column that passes both guards. *)
Definition mean_of (col : array float) : float :=
  let '(sum, validCount) := sum_and_count col in
  sum / float64_of_int validCount.

Definition stddev_of (col : array float) : float :=
  let '(sum, validCount) := sum_and_count col in
  let mean := sum / float64_of_int validCount in
  let diffs := build_diffs col mean in
  let sumSquares := sum_squares diffs in
  let variance := sumSquares / float64_of_int validCount in
  PrimFloat.sqrt variance.

End Main.

(** ** src/unnamed/part_005 (package csvreader) *)

Module Csvreader.

Record CSVReader : Type := { schema : Schema; reader : Csv.Reader }.

(** [NewCSVReader(r, schema, opts...)] (lines 38-49): the input [r] is
    given as the [csv.Reader] that [csv.NewReader] opens on it. *)
Definition NewCSVReader (r : Csv.Reader) (schema : Schema) : CSVReader :=
  {| schema := schema; reader := r |}.

(** [Chan] (lines 52-73), for a context that is never done, as the one
    [ReadSingleColumn] passes ([context.Background()]): the goroutine
    sends every record on the unbuffered channel in the order [Next]
    yields them, then sends the wrapped [Err()] if there is one.  The
    result is what the receiver reads: the records in channel order and
    the one value of [errs] (nil when the channel is closed empty). *)
Fixpoint Chan_loop (fuel : nat) (rd : Csv.Reader) (recs : list RecordBatch)
  : list RecordBatch * Csv.Reader :=
  match fuel with
  | O => (recs, rd)
  | S fuel' =>
      let '(more, rd') := Csv.Next rd in
      if more then
        match Csv.Record_ rd' with
        | Some rec => Chan_loop fuel' rd' (recs ++ [rec])
        | None => Chan_loop fuel' rd' recs
        end
      else (recs, rd')
  end.

Definition Chan (cr : CSVReader) : list RecordBatch * option error :=
  let '(recs, rd) :=
    Chan_loop (S (List.length (Csv.pending (reader cr)))) (reader cr) [] in
  (recs, match Csv.Err rd with
         | Some e => Some (ErrReadingCSV e)
         | None => None
         end).

(** [rec.Schema().FieldIndices(name)]: the positions of the fields with
    that name, in increasing order. *)
Fixpoint FieldIndices_from (fields : list Field) (name : string) (i : nat)
  : list nat :=
  match fields with
  | [] => []
  | f :: rest =>
      if String.eqb (Name f) name
      then i :: FieldIndices_from rest name (S i)
      else FieldIndices_from rest name (S i)
  end.

Definition FieldIndices (s : Schema) (name : string) : list nat :=
  FieldIndices_from s name 0.

(** Lines 82-92: [for rec := range recs { ... }]. *)
Fixpoint collect_chunks (recs : list RecordBatch) (columnName : string)
    (chunks : list Column) : list Column * option error :=
  match recs with
  | [] => (chunks, None)
  | rec :: rest =>
      match FieldIndices (RecSchema rec) columnName with
      | [] => ([], Some (ErrColumnNotFound columnName))
      | i :: _ =>
          let col := nth i (Columns rec) (Float64Col []) in
          collect_chunks rest columnName (chunks ++ [col])
      end
  end.

(** [ReadSingleColumn] (lines 76-111). *)
Definition ReadSingleColumn (cr : CSVReader) (r : Csv.Reader)
    (columnName : string) : option Column * option error :=
  let reader := NewCSVReader r (schema cr) in
  let '(recs, errs) := Chan reader in
  let '(chunks, err) := collect_chunks recs columnName [] in
  match err with
  | Some e => (None, Some e)
  | None =>
      match errs with
      | Some e => (None, Some e)
      | None =>
          if Nat.eqb (List.length chunks) 0
          then (None, Some (ErrNoData columnName))
          else
            match ArrayLib.Concatenate chunks with
            | (_, Some e) => (None, Some e)
            | (concat, None) => (concat, None)
            end
      end
  end.

End Csvreader.

(** ** Arrow compute kernels

    [compute.CallFunction(ctx, name, nil, args...)] for the five kernels the
    package calls, on a Float64 array and a valid Float64 scalar.  A call on
    a context that is already done fails with the context's error.  The
    arithmetic kernels map the valid rows and leave a null row null, its
    value cell at zero.  The comparison keeps the validity of its input and
    compares the value cell of every row, the cell of a null row included:
    the mask row of a null z-score is null, and its value cell holds
    [0 >= threshold].

    What "divide" does with a divisor equal to zero is not fixed by the
    repository (an IEEE quotient, or the library's "divide by zero" error);
    [ZeroDivisor] keeps both readings, and every statement below holds for
    both. *)
Module Compute.

Open Scope float_scope.

Inductive ZeroDivisor : Type := IEEEQuotient | RaisesError.

Definition map_valid {A B} `{GoZero B} (f : A -> B) (a : array A) : array B :=
  map (fun s => if valid s then Slot true (f (raw s)) else Slot false go_zero) a.

(** The comparison kernels: the validity of the input row, the comparison
    of its value cell. *)
Definition map_cells {A B} (f : A -> B) (a : array A) : array B :=
  map (fun s => Slot (valid s) (f (raw s))) a.

Definition subtract (ctx : Context) (a : array float) (s : float)
  : array float * option error :=
  match ctx_err ctx with
  | Some e => ([], Some e)
  | None => (map_valid (fun v => v - s) a, None)
  end.

Definition divide (zd : ZeroDivisor) (ctx : Context) (a : array float)
    (s : float) : array float * option error :=
  match ctx_err ctx with
  | Some e => ([], Some e)
  | None =>
      match zd with
      | IEEEQuotient => (map_valid (fun v => v / s) a, None)
      | RaisesError =>
          if (s =? 0) && existsb valid a
          then ([], Some ErrDivideByZero)
          else (map_valid (fun v => v / s) a, None)
      end
  end.

Definition abs (ctx : Context) (a : array float)
  : array float * option error :=
  match ctx_err ctx with
  | Some e => ([], Some e)
  | None => (map_valid PrimFloat.abs a, None)
  end.

Definition greater_equal (ctx : Context) (a : array float) (s : float)
  : array bool * option error :=
  match ctx_err ctx with
  | Some e => ([], Some e)
  | None => (map_cells (fun v => s <=? v) a, None)
  end.

Definition sqrt (ctx : Context) (s : float) : float * option error :=
  match ctx_err ctx with
  | Some e => (0, Some e)
  | None => (PrimFloat.sqrt s, None)
  end.

End Compute.

(** ** src/unnamed/part_008 (package supercharged, Arrow compute kernels) *)

Module Supercharged.

Open Scope float_scope.

(** [Result] (lines 15-18). *)
Record Result : Type := { Mask : array bool; Zscore : array float }.

(** The first loop of [computeMeanAndVariance] (lines 32-42). *)
Definition sums_and_count (col : array float) : float * float * Z :=
  for_range (Len col)
    (fun i '(sum, sumsq, count) =>
       if IsNull col i then (sum, sumsq, count)
       else
         let v := Value col i in
         (sum + v, sumsq + v * v, (count + 1)%Z))
    (0, 0, 0%Z).

(** Its second loop (lines 48-55). *)
Definition sum_sq_diffs (col : array float) (mean : float) : float :=
  for_range (Len col)
    (fun i variance =>
       if IsNull col i then variance
       else
         let diff := Value col i - mean in
         variance + diff * diff)
    0.

(** [computeMeanAndVariance] (lines 31-58). *)
Definition computeMeanAndVariance (col : array float) : float * float :=
  let '(sum, sumsq, count) := sums_and_count col in
  if Z.eqb count 0 then (0, 0) else
  let mean := sum / float64_of_int count in
  let variance := sum_sq_diffs col mean in
  let variance := variance / float64_of_int count in
  (mean, variance).

(** The kernel calls of [DetectAnomalies], from the subtraction on
    (lines 77-115); shared with the variant of part_007. *)
Definition detect_with (zd : Compute.ZeroDivisor) (ctx : Context)
    (col : array float) (mean stdDev threshold : float)
  : option Result * option error :=
  match Compute.subtract ctx col mean with
  | (_, Some e) => (None, Some (ErrWrapped "subtract computation" e))
  | (diffResult, None) =>
  match Compute.divide zd ctx diffResult stdDev with
  | (_, Some e) => (None, Some (ErrWrapped "divide computation" e))
  | (zscoreResult, None) =>
  match Compute.abs ctx zscoreResult with
  | (_, Some e) => (None, Some (ErrWrapped "abs computation" e))
  | (absResult, None) =>
  let zscore := zscoreResult in
  match Compute.greater_equal ctx absResult threshold with
  | (_, Some e) => (None, Some (ErrWrapped "threshold comparison" e))
  | (mask, None) => (Some {| Mask := mask; Zscore := zscore |}, None)
  end end end end.

(** [DetectAnomalies] (lines 61-116). *)
Definition DetectAnomalies (zd : Compute.ZeroDivisor) (ctx : Context)
    (col : Column) (threshold : float) : option Result * option error :=
  match col with
  | Float64Col floatCol =>
      let '(mean, variance) := computeMeanAndVariance floatCol in
      let stdDev := PrimFloat.sqrt variance in
      detect_with zd ctx floatCol mean stdDev threshold
  | _ => (None, Some ErrNotFloat64)
  end.

End Supercharged.

(** ** src/unnamed/part_007: the same detector, the square root taken by
    the "sqrt" kernel (lines 74-83) *)

Module SuperchargedSqrt.

Definition DetectAnomalies (zd : Compute.ZeroDivisor) (ctx : Context)
    (col : Column) (threshold : float)
  : option Supercharged.Result * option error :=
  match col with
  | Float64Col floatCol =>
      let '(mean, variance) := Supercharged.computeMeanAndVariance floatCol in
      match Compute.sqrt ctx variance with
      | (_, Some e) => (None, Some (ErrWrapped "sqrt computation" e))
      | (stdDev, None) =>
          Supercharged.detect_with zd ctx floatCol mean stdDev threshold
      end
  | _ => (None, Some ErrNotFloat64)
  end.

End SuperchargedSqrt.

(** ** The statistics of the specification

    Section 4.4 of the specification, over the non-null values of a column
    taken in row order: the population mean, the population variance
    (divisor N), its square root, and the z-score of a value.  Sums are
    accumulated from the left, starting at 0. *)

Module Spec.

Open Scope float_scope.

Definition valid_values (col : array float) : list float :=
  map raw (filter valid col).

Definition count (vs : list float) : Z := Z.of_nat (List.length vs).

Definition sum (vs : list float) : float := fold_left PrimFloat.add vs 0.

Definition mean (vs : list float) : float := sum vs / float64_of_int (count vs).

Definition variance (vs : list float) : float :=
  fold_left (fun acc v => acc + (v - mean vs) * (v - mean vs)) vs 0
  / float64_of_int (count vs).

Definition stddev (vs : list float) : float := PrimFloat.sqrt (variance vs).

Definition zscore (vs : list float) (v : float) : float :=
  abs (v - mean vs) / stddev vs.

(** The same data with the null rows removed entirely. *)
Definition drop_nulls {A} (col : array A) : array A := filter valid col.

(** The rows of [mask] that sit at the non-null rows of [col]. *)
Definition at_valid {A B} (col : array A) (mask : array B) : array B :=
  map snd (filter (fun p => valid (fst p)) (combine col mask)).

(** How many rows of a mask are flagged. *)
Definition flagged (mask : array bool) : nat :=
  List.length (filter (fun s => valid s && raw s) mask).

(** The values of the non-null rows of [col] whose mask bit is set, in row
    order. *)
Definition flagged_values {A} (col : array A) (mask : array bool) : array A :=
  map (fun p => Slot true (raw (fst p)))
    (filter (fun p => (valid (snd p) && raw (snd p)) && valid (fst p))
       (combine col mask)).

(** What [Main.DetectAnomalies] returns: [(mask, anomalies, err)]. *)
Definition detection : Type :=
  (option (array bool) * option (array float) * option error)%type.

(** The number of anomalies a detection reports (none when it failed). *)
Definition anomaly_count (r : detection) : nat :=
  match r with
  | (_, Some anomalies, _) => Len anomalies
  | (_, None, _) => 0%nat
  end.

Definition flagged_count (r : detection) : nat :=
  match r with
  | (Some mask, _, _) => flagged mask
  | (None, _, _) => 0%nat
  end.

(** The detection succeeded and its mask is set at row [i]. *)
Definition flags_row (r : detection) (i : nat) : Prop :=
  exists mask anomalies,
    r = (Some mask, Some anomalies, None)
    /\ nth_error mask i = Some (Slot true true).

Definition flags_every_valid_row (col : array float) (r : detection) : Prop :=
  forall i v, nth_error col i = Some (Slot true v) -> flags_row r i.


(** The extracted column is the concatenation of the chunks. *)
Definition total_rows (batches : list RecordBatch) : nat :=
  fold_left (fun n b => (n + NumRows b)%nat) batches 0%nat.

End Spec.

(** ** src/unnamed/part_006: the detector written as two expressions

    This version of the package builds [abs((col - mean(col)) /
    stddev_pop(col))], and [greater] of it and the threshold, with the
    expression builder, and has the expression executor evaluate both on a
    one-column record batch.  Builder and executor are outside the
    repository: an [Exprs.Library] holds what they answer, and the detector
    takes it as an argument. *)

Module Exprs.

Open Scope float_scope.
Open Scope string_scope.

(** What the builder builds: a field reference, a literal, a call. *)
Inductive Expr : Type :=
| FieldRef (name : string)
| Literal (v : float)
| Call (fn : string) (args : list Expr).

(** The value of an array datum as the type assertions of the detector see
    it: an [arrow.Array] that is an [*array.Float64], one that is an
    [*array.Boolean], or anything else. *)
Inductive ArrayValue : Type :=
| Float64Array (a : array float)
| BooleanArray (a : array bool)
| OtherValue.

Inductive Datum : Type :=
| ArrayDatum (v : ArrayValue)
| OtherDatum.

(** The answers of the library: the error, if any, of [SetInputSchema], of
    a [CallScalar] and of a [BuildExpr], and the datum and the error of
    [ExecuteScalarExpression]. *)
Record Library : Type :=
  { SetInputSchema : Schema -> option error;
    CallScalar : string -> list Expr -> option error;
    BuildExpr : Expr -> option error;
    ExecuteScalarExpression :
      Context -> Schema -> Expr -> RecordBatch -> option Datum * option error }.








End Exprs.

Module Expression.

Import Exprs.
Open Scope float_scope.
Open Scope string_scope.

(** What a call of the detector ends in: a result and a nil error, an
    error, or a panic (a failed type assertion). *)
Inductive outcome : Type :=
| Returned (res : Supercharged.Result)
| Failed (what : string) (cause : option error)
| Panicked.

(** [if err != nil { return nil, fmt.Errorf("<what>: %w", err) }]. *)
Definition step (what : string) (err : option error) (k : outcome) : outcome :=
  match err with
  | Some e => Failed what (Some e)
  | None => k
  end.

(** Schema and batch (lines 38-46). *)
Definition schema : Schema := [{| Name := "col" |}].

Definition batch_of (col : array float) : RecordBatch :=
  {| RecSchema := schema; NumRows := Len col; Columns := [Float64Col col] |}.

(** The builder nodes (lines 56-79, 96). *)
Definition colRef : Expr := FieldRef "col".
Definition meanCall : Expr := Call "mean" [colRef].
Definition stdCall : Expr := Call "stddev_pop" [colRef].
Definition subCall : Expr := Call "subtract" [colRef; meanCall].
Definition divCall : Expr := Call "divide" [subCall; stdCall].
Definition absCall : Expr := Call "abs" [divCall].
Definition zExpr : Expr := absCall.
Definition gtCall (threshold : float) : Expr :=
  Call "greater" [absCall; Literal threshold].
Definition gtExpr (threshold : float) : Expr := gtCall threshold.

(** [DetectAnomalies] (lines 32-126); [None] is the nil column. *)
Definition DetectAnomalies (lib : Library) (ctx : Context)
    (col : option (array float)) (threshold : float) : outcome :=
  match col with
  | None => Failed "input array is nil" None
  | Some col =>
  let batch := batch_of col in
  step "set schema" (SetInputSchema lib schema) (
  step "mean call" (CallScalar lib "mean" [colRef]) (
  step "stddev call" (CallScalar lib "stddev_pop" [colRef]) (
  step "subtract call" (CallScalar lib "subtract" [colRef; meanCall]) (
  step "divide call" (CallScalar lib "divide" [subCall; stdCall]) (
  step "abs call" (CallScalar lib "abs" [divCall]) (
  step "build zscore expr" (BuildExpr lib absCall) (
  match ExecuteScalarExpression lib ctx schema zExpr batch with
  | (_, Some e) => Failed "exec zscore" (Some e)
  | (zDatum, None) =>
  step "greater call"
    (CallScalar lib "greater" [absCall; Literal threshold]) (
  step "build mask expr" (BuildExpr lib (gtCall threshold)) (
  match ExecuteScalarExpression lib ctx schema (gtExpr threshold) batch with
  | (_, Some e) => Failed "exec mask" (Some e)
  | (mDatum, None) =>
  match zDatum, mDatum with
  | Some (ArrayDatum (Float64Array zFloat64)),
    Some (ArrayDatum (BooleanArray mBool)) =>
      Returned {| Supercharged.Mask := mBool; Supercharged.Zscore := zFloat64 |}
  | _, _ => Panicked
  end end)) end)))))))
  end.

End Expression.

(** ** Inputs used as test cases *)

Module Examples.

Open Scope float_scope.

(** The columns of the repository's tests. *)
Definition scenario1 : array float := of_values [1; 2; 3; 100; 2].
Definition scenario2 : array float :=
  of_values [100; 100; 100; 100; 200; 100; 0; 100].
Definition scenario3 : array float :=
  of_options [Some 100; Some 100; None; Some 100; Some 200; Some 0; None; Some 100].

(** Three identical values whose sum and mean are exact
    ([TestDetectAnomalies_EdgeCases]). *)
Definition three_hundreds : array float := of_values [100; 100; 100].

(** Three identical values that are not exactly representable. *)
Definition three_tenths : array float := of_values [0.1; 0.1; 0.1].

(** Two equal values, and three values with the middle one at the mean. *)
Definition two_fives : array float := of_values [5; 5].
Definition ramp : array float := of_values [1; 2; 3].

(** Two values at distance one from their mean, and deviation one. *)
Definition zero_two : array float := of_values [0; 2].

(** A one-column record batch. *)
Definition batch (name : string) (vals : list float) : RecordBatch :=
  {| RecSchema := [{| Name := name |}];
     NumRows := List.length vals;
     Columns := [Float64Col (of_values vals)] |}.

(** An input that parses into two batches of one row each. *)
Definition two_batches : list RecordBatch := [batch "x" [1]; batch "x" [2]].

Definition two_batch_reader : Main.CSVReader :=
  {| Main.schema := [{| Name := "x" |}];
     Main.reader := Csv.open two_batches None |}.

End Examples.

(** A library to run the detector of part_006 on: its builder accepts
    everything, and its executor evaluates an expression as written on the
    one Float64 column of the batch, with a null row wherever the expression
    has no value. *)
Module ExprExamples.

Import Exprs.
Open Scope float_scope.
Open Scope string_scope.




End ExprExamples.

(** ** src/unnamed/part_002 (package cmd): the analyze command *)

Module Cmd.

Open Scope float_scope.

(** The errors [RunE] builds itself. *)
Inductive cmd_error : Type :=
| ErrRequired (flag : string)             (* "--file is required",
                                             "--column is required" *)
| ErrStep (what : string) (cause : error) (* "open: %w", "infer: %w",
                                             "seek: %w", "read column: %w",
                                             "detect anomalies: %w" *)
| ErrUnsupportedArrayType                 (* "unsupported array type: %T" *)
| ErrJSONUnsupportedValue.                (* what [enc.Encode] returns for a
                                             float that is NaN or infinite *)

(** What one run of the command meets outside the package: its flags
    ([viper.GetString], [viper.GetFloat64], [viper.GetBool]) and the
    outcomes of [os.Open], [csvreader.InferSchemaFromCSV] and [f.Seek];
    [parsed] is the [csv.Reader] that [csv.NewReader] opens on the rewound
    file under the inferred schema. *)
Record Invocation : Type :=
  { file_flag : string;
    column_flag : string;
    threshold_flag : float;
    json_flag : bool;
    open_err : option error;
    infer_err : option error;
    inferred : Schema;
    seek_err : option error;
    parsed : Csv.Reader }.

(** [Out] (lines 62-65) and the two ways it is printed (lines 73-79).
    Writing to standard output is taken to succeed. *)
Record Out : Type := { Count : Z; Anomalies : list float }.

Inductive Printed : Type :=
| PrintedJSON (out : Out)
| PrintedText (out : Out).

(** Lines 67-71: the z-score of every row whose mask value is set. *)
Definition collect_anomalies (res : Supercharged.Result) : list float :=
  for_range (Len (Supercharged.Mask res))
    (fun i anomalies =>
       if Value (Supercharged.Mask res) i
       then anomalies ++ [Value (Supercharged.Zscore res) i]
       else anomalies)
    [].

(** [json.Encoder.Encode] refuses a float64 that is NaN or infinite, and
    then writes nothing. *)
Definition json_unsupported (z : float) : bool := is_nan z || is_infinity z.

(** Lines 73-80: the report as JSON ([return enc.Encode(out)]) or as text
    ([fmt.Printf] with [%d] and [%v], which print any float). *)
Definition report (json : bool) (out : Out) : option Printed * option cmd_error :=
  if json
  then
    if existsb json_unsupported (Anomalies out)
    then (None, Some ErrJSONUnsupportedValue)
    else (Some (PrintedJSON out), None)
  else (Some (PrintedText out), None).

(** [analyzeCmd.RunE] (lines 20-81): what it prints, and the error it
    returns.  The detector is the one of package supercharged, called with
    [context.Background()].  The two [(None, None)] branches stand for a
    callee that returns neither a value nor an error, where the Go code
    would dereference nil; neither callee does. *)
Definition RunE (zd : Compute.ZeroDivisor) (inv : Invocation)
  : option Printed * option cmd_error :=
  if String.eqb (file_flag inv) "" then (None, Some (ErrRequired "file")) else
  if String.eqb (column_flag inv) "" then (None, Some (ErrRequired "column")) else
  match open_err inv with
  | Some e => (None, Some (ErrStep "open" e))
  | None =>
  match infer_err inv with
  | Some e => (None, Some (ErrStep "infer" e))
  | None =>
  match seek_err inv with
  | Some e => (None, Some (ErrStep "seek" e))
  | None =>
  match Csvreader.ReadSingleColumn
          (Csvreader.NewCSVReader (parsed inv) (inferred inv))
          (parsed inv) (column_flag inv) with
  | (_, Some e) => (None, Some (ErrStep "read column" e))
  | (None, None) => (None, None)
  | (Some arr, None) =>
  match arr with
  | Float64Col colArr =>
      match Supercharged.DetectAnomalies zd Background (Float64Col colArr)
              (threshold_flag inv) with
      | (_, Some e) => (None, Some (ErrStep "detect anomalies" e))
      | (None, None) => (None, None)
      | (Some res, None) =>
          let out :=
            {| Count := Z.of_nat (Len colArr);
               Anomalies := collect_anomalies res |} in
          report (json_flag inv) out
      end
  | _ => (None, Some ErrUnsupportedArrayType)
  end
  end end end end.

End Cmd.

Module CmdExamples.

Open Scope float_scope.

(** [analyze --file data.csv --column x --threshold 1 --json] on a file
    that parses into the two one-row batches [[1]] and [[2]]. *)
Definition two_batch_run : Cmd.Invocation :=
  {| Cmd.file_flag := "data.csv";
     Cmd.column_flag := "x";
     Cmd.threshold_flag := 1;
     Cmd.json_flag := true;
     Cmd.open_err := None;
     Cmd.infer_err := None;
     Cmd.inferred := [{| Name := "x" |}];
     Cmd.seek_err := None;
     Cmd.parsed := Csv.open Examples.two_batches None |}.

(** [analyze --file data.csv --column x --threshold 0 --json] on a file
    whose column x parses into 1, a null and 3. *)
Definition null_row_run : Cmd.Invocation :=
  {| Cmd.file_flag := "data.csv";
     Cmd.column_flag := "x";
     Cmd.threshold_flag := 0;
     Cmd.json_flag := true;
     Cmd.open_err := None;
     Cmd.infer_err := None;
     Cmd.inferred := [{| Name := "x" |}];
     Cmd.seek_err := None;
     Cmd.parsed :=
       Csv.open
         [{| RecSchema := [{| Name := "x" |}];
             NumRows := 3;
             Columns := [Float64Col (of_options [Some 1; None; Some 3])] |}]
         None |}.

End CmdExamples.

(** * Facts about binary64 arithmetic

    Proved from the specification of the primitive operations
    ([FloatAxioms]): comparisons through [SFcompare], the sign of a
    quotient and of a square root through [SFdiv] and [SFsqrt]. *)

Module FloatFacts.

Open Scope float_scope.

Definition sign_false (x : spec_float) : Prop :=
  match x with
  | S754_zero s | S754_infinity s | S754_finite s _ _ => s = false
  | S754_nan => True
  end.

(* nan, or positive and not zero *)
Definition pos_or_nan (x : spec_float) : Prop :=
  match x with
  | S754_zero _ => False
  | S754_infinity s | S754_finite s _ _ => s = false
  | S754_nan => True
  end.

Ltac sf_order :=
  repeat match goal with
  | |- context [ PosDef.Pos.compare_cont Eq ?a ?b ] =>
      change (PosDef.Pos.compare_cont Eq a b) with (Pos.compare a b)
  | H : context [ PosDef.Pos.compare_cont Eq ?a ?b ] |- _ =>
      change (PosDef.Pos.compare_cont Eq a b) with (Pos.compare a b) in H
  end;
  repeat match goal with
  | H : context [ (?a ?= ?b)%Z ] |- _ =>
      destruct (Z.compare_spec a b); simpl in H; try discriminate H
  | |- context [ (?a ?= ?b)%Z ] =>
      destruct (Z.compare_spec a b); simpl
  | H : context [ (?a ?= ?b)%positive ] |- _ =>
      destruct (Pos.compare_spec a b); simpl in H; try discriminate H
  | |- context [ (?a ?= ?b)%positive ] =>
      destruct (Pos.compare_spec a b); simpl
  end;
  subst; try reflexivity; try discriminate; try lia.

Lemma SFcompare_leb_ltb_trans a b c :
  SFleb a b = true -> SFltb b c = true -> SFltb a c = true.
Proof.
  unfold SFleb, SFltb.
  destruct a as [sa|sa| |sa ma ea], b as [sb|sb| |sb mb eb], c as [sc|sc| |sc mc ec];
    simpl; try discriminate; try reflexivity;
    try destruct sa; try destruct sb; try destruct sc; simpl;
    try discriminate; try reflexivity; intros H1 H2; sf_order.
Qed.

Lemma SFcompare_eq_sym a b :
  SFcompare a b = Some Eq -> SFcompare b a = Some Eq.
Proof.
  destruct a as [sa|sa| |sa ma ea], b as [sb|sb| |sb mb eb];
    simpl; try discriminate; try reflexivity;
    try destruct sa; try destruct sb; simpl;
    try discriminate; try reflexivity; intros H1; sf_order.
Qed.

Lemma binary_round_aux_abs p e s m ex l :
  SFabs (binary_round_aux p e s m ex l) = binary_round_aux p e false m ex l.
Proof.
  unfold binary_round_aux.
  destruct (shr_fexp p e m ex l) as [mrs' e'].
  destruct (shr_fexp p e _ e' loc_Exact) as [mrs'' e''].
  destruct (shr_m mrs''); simpl; try reflexivity.
  destruct (e'' <=? e - p)%Z; reflexivity.
Qed.

Lemma binary_round_aux_sign p e m ex l :
  sign_false (binary_round_aux p e false m ex l).
Proof.
  unfold binary_round_aux.
  destruct (shr_fexp p e m ex l) as [mrs' e'].
  destruct (shr_fexp p e _ e' loc_Exact) as [mrs'' e''].
  destruct (shr_m mrs''); simpl; try reflexivity.
  destruct (e'' <=? e - p)%Z; reflexivity.
Qed.

Lemma SFsqrt_sign p e x :
  match SFsqrt p e x with
  | S754_zero _ | S754_nan => True
  | S754_infinity s | S754_finite s _ _ => s = false
  end.
Proof.
  destruct x as [s|s| |s m ex]; simpl; try exact I.
  - destruct s; simpl; auto.
  - destruct s; simpl; auto.
    destruct (SFsqrt_core_binary p e (Z.pos m) ex) as [[mz ez] lz].
    pose proof (binary_round_aux_sign p e mz ez lz) as H.
    destruct (binary_round_aux p e false mz ez lz); simpl in *; auto.
Qed.

Lemma SFabs_div p e x y :
  pos_or_nan y -> SFabs (SFdiv p e x y) = SFdiv p e (SFabs x) y.
Proof.
  destruct x as [sx|sx| |sx mx ex], y as [sy|sy| |sy my ey]; simpl;
    intros H; try contradiction; subst; try reflexivity;
    try (destruct sx; reflexivity).
  destruct (SFdiv_core_binary p e (Z.pos mx) ex (Z.pos my) ey) as [[mz ez] lz].
  rewrite binary_round_aux_abs. destruct sx; reflexivity.
Qed.

Lemma SFdiv_abs_sign p e x y :
  pos_or_nan y -> sign_false (SFdiv p e (SFabs x) y).
Proof.
  destruct x as [sx|sx| |sx mx ex], y as [sy|sy| |sy my ey]; simpl;
    intros H; try contradiction; subst; try reflexivity.
  destruct (SFdiv_core_binary p e (Z.pos mx) ex (Z.pos my) ey) as [[mz ez] lz].
  apply binary_round_aux_sign.
Qed.

Lemma Prim2SF_zero : Prim2SF 0 = S754_zero false.
Proof. reflexivity. Qed.

Lemma sqrt_pos_or_nan v :
  (PrimFloat.sqrt v =? 0) = false -> pos_or_nan (Prim2SF (PrimFloat.sqrt v)).
Proof.
  rewrite FloatAxioms.eqb_spec, sqrt_spec, Prim2SF_zero. unfold SF64sqrt.
  pose proof (SFsqrt_sign prec emax (Prim2SF v)) as H.
  destruct (SFsqrt prec emax (Prim2SF v)); simpl in *; auto.
  discriminate.
Qed.

Lemma abs_div_sqrt x v :
  (PrimFloat.sqrt v =? 0) = false ->
  abs (x / PrimFloat.sqrt v) = abs x / PrimFloat.sqrt v.
Proof.
  intros H. apply Prim2SF_inj.
  rewrite abs_spec, !div_spec, abs_spec. unfold SF64div.
  apply SFabs_div, sqrt_pos_or_nan, H.
Qed.

Lemma eqb_true_ltb_false z t : (z =? t) = true -> (t <? z) = false.
Proof.
  rewrite FloatAxioms.eqb_spec, ltb_spec. unfold SFeqb, SFltb.
  destruct (SFcompare (Prim2SF z) (Prim2SF t)) as [[| |]|] eqn:E; try discriminate.
  intros _. rewrite (SFcompare_eq_sym _ _ E). reflexivity.
Qed.

Lemma leb_ltb_trans t1 t2 z :
  (t1 <=? t2) = true -> (t2 <? z) = true -> (t1 <? z) = true.
Proof. rewrite leb_spec, !ltb_spec. apply SFcompare_leb_ltb_trans. Qed.


(** A threshold at or below zero lies strictly below every z-score that is
    a number and differs from it. *)
Lemma nonpositive_ltb_zscore t x v :
  (t <=? 0) = true ->
  (PrimFloat.sqrt v =? 0) = false ->
  is_nan (abs x / PrimFloat.sqrt v) = false ->
  (abs x / PrimFloat.sqrt v =? t) = false ->
  (t <? abs x / PrimFloat.sqrt v) = true.
Proof.
  intros Ht Hs Hn Hne.
  pose proof (SFdiv_abs_sign prec emax (Prim2SF x) _ (sqrt_pos_or_nan v Hs)) as Hz.
  revert Ht Hn Hne. unfold is_nan.
  rewrite leb_spec, ltb_spec, !FloatAxioms.eqb_spec, div_spec, abs_spec, Prim2SF_zero.
  unfold SF64div, SFleb, SFltb, SFeqb.
  destruct (SFdiv prec emax (SFabs (Prim2SF x)) (Prim2SF (PrimFloat.sqrt v)))
    as [sz|sz| |sz mz ez]; simpl in Hz; subst;
    destruct (Prim2SF t) as [st|st| |st mt et]; simpl; try discriminate;
    try destruct st; simpl; try discriminate; try reflexivity.
Qed.

End FloatFacts.

(** * Index loops and builders as list functions *)

Module LoopFacts.

(** A loop over the indices of a list whose body only reads the row at
    its index is a left fold over the rows. *)
Lemma for_range_nth_error {A S : Type} (l : list A)
    (body : nat -> S -> S) (f : A -> S -> S) :
  (forall i x s, nth_error l i = Some x -> body i s = f x s) ->
  forall init,
    for_range (List.length l) body init = fold_left (fun s x => f x s) l init.
Proof.
  unfold for_range.
  induction l as [|x l IH] using rev_ind; intros Hbody init.
  - reflexivity.
  - rewrite length_app, Nat.add_comm. cbn [List.length Nat.add].
    rewrite seq_S, !fold_left_app. cbn [fold_left Nat.add].
    rewrite IH.
    + apply Hbody. rewrite nth_error_app2, Nat.sub_diag by lia. reflexivity.
    + intros i y s Hi. apply Hbody.
      rewrite nth_error_app1; [exact Hi|].
      apply nth_error_Some. congruence.
Qed.

Lemma fold_append {A B : Type} (g : A -> B) (l : list A) (init : list B) :
  fold_left (fun b x => b ++ [g x]) l init = init ++ map g l.
Proof.
  revert init. induction l as [|x l IH]; intros init; cbn.
  - now rewrite app_nil_r.
  - rewrite IH, <- app_assoc. reflexivity.
Qed.

Lemma fold_append_if {A B : Type} (p : A -> bool) (g : A -> B)
    (l : list A) (init : list B) :
  fold_left (fun b x => if p x then b ++ [g x] else b) l init
  = init ++ map g (filter p l).
Proof.
  revert init. induction l as [|x l IH]; intros init; cbn.
  - now rewrite app_nil_r.
  - rewrite IH. destruct (p x); cbn; [rewrite <- app_assoc|]; reflexivity.
Qed.

Lemma map_filter_ext_in {A B : Type} (f f' : A -> bool) (g g' : A -> B)
    (l : list A) :
  (forall x, In x l -> f x = f' x) ->
  (forall x, In x l -> g x = g' x) ->
  map g (filter f l) = map g' (filter f' l).
Proof.
  intros Hf Hg. rewrite (filter_ext_in f f' l Hf).
  apply map_ext_in. intros x Hx. apply filter_In in Hx.
  apply Hg. exact (proj1 Hx).
Qed.

Lemma IsNull_at {A} (a : array A) i x :
  nth_error a i = Some x -> IsNull a i = negb (valid x).
Proof. unfold IsNull. now intros ->. Qed.

Lemma Value_at {A} `{GoZero A} (a : array A) i x :
  nth_error a i = Some x -> Value a i = raw x.
Proof. unfold Value. now intros ->. Qed.

End LoopFacts.

(** * The steps of [Main.DetectAnomalies] in closed form *)

Module MainFacts.

Import LoopFacts.
Open Scope float_scope.

Lemma count_step_fold (col : array float) (s : float) (c : Z) :
  fold_left
    (fun (acc : float * Z) (x : slot float) =>
       let '(sum, validCount) := acc in
       if negb (negb (valid x))
       then (sum + raw x, (validCount + 1)%Z)
       else (sum, validCount))
    col (s, c)
  = (fold_left PrimFloat.add (Spec.valid_values col) s,
     (c + Spec.count (Spec.valid_values col))%Z).
Proof.
  unfold Spec.valid_values, Spec.count.
  revert s c. induction col as [|x col IH]; intros s c; cbn.
  - now rewrite Z.add_0_r.
  - destruct (valid x); cbn [negb]; rewrite IH; cbn [filter map fold_left List.length].
    + f_equal. lia.
    + reflexivity.
Qed.

Lemma sum_and_count_eq (col : array float) :
  Main.sum_and_count col
  = (Spec.sum (Spec.valid_values col), Spec.count (Spec.valid_values col)).
Proof.
  unfold Main.sum_and_count, Len.
  rewrite for_range_nth_error with
    (f := fun (x : slot float) (acc : float * Z) =>
            let '(sum, validCount) := acc in
            if negb (negb (valid x))
            then (sum + raw x, (validCount + 1)%Z)
            else (sum, validCount)).
  - apply count_step_fold.
  - intros i x [s c] Hi. now rewrite (IsNull_at _ _ _ Hi), (Value_at _ _ _ Hi).
Qed.

Lemma build_diffs_eq (col : array float) (mean : float) :
  Main.build_diffs col mean = Compute.map_valid (fun v => v - mean) col.
Proof.
  unfold Main.build_diffs, NewArray, NewBuilder, Len, Compute.map_valid.
  rewrite for_range_nth_error with
    (f := fun (x : slot float) (b : Builder float) =>
            b ++ [if valid x then Slot true (raw x - mean)
                  else Slot false go_zero]).
  - exact (fold_append
             (fun x : slot float =>
                if valid x then Slot true (raw x - mean) else Slot false go_zero)
             col []).
  - intros i x b Hi. rewrite (IsNull_at _ _ _ Hi), (Value_at _ _ _ Hi).
    unfold Append, AppendNull. now destruct (valid x).
Qed.

Lemma valid_values_map_valid (g : float -> float) (col : array float) :
  Spec.valid_values (Compute.map_valid g col) = map g (Spec.valid_values col).
Proof.
  unfold Spec.valid_values, Compute.map_valid.
  induction col as [|x col IH]; cbn; [reflexivity|].
  destruct (valid x); cbn; now rewrite IH.
Qed.

Lemma squares_fold (diffs : array float) (acc : float) :
  fold_left
    (fun (ss : float) (x : slot float) =>
       if negb (negb (valid x)) then ss + raw x * raw x else ss)
    diffs acc
  = fold_left (fun ss d => ss + d * d) (Spec.valid_values diffs) acc.
Proof.
  unfold Spec.valid_values.
  revert acc. induction diffs as [|x diffs IH]; intros acc; cbn; [reflexivity|].
  destruct (valid x); cbn; apply IH.
Qed.

Lemma sum_squares_eq (diffs : array float) :
  Main.sum_squares diffs
  = fold_left (fun ss d => ss + d * d) (Spec.valid_values diffs) 0.
Proof.
  unfold Main.sum_squares, Len.
  rewrite for_range_nth_error with
    (f := fun (x : slot float) (ss : float) =>
            if negb (negb (valid x)) then ss + raw x * raw x else ss).
  - apply squares_fold.
  - intros i x ss Hi. now rewrite (IsNull_at _ _ _ Hi), (Value_at _ _ _ Hi).
Qed.

Lemma fold_left_map {A B C : Type} (f : C -> B -> C) (g : A -> B)
    (l : list A) (acc : C) :
  fold_left f (map g l) acc = fold_left (fun c a => f c (g a)) l acc.
Proof. revert acc. induction l; intros; cbn; auto. Qed.

Lemma false_mask_eq (col : array float) :
  Main.false_mask col = map (fun _ => Slot true false) col.
Proof.
  unfold Main.false_mask, NewArray, NewBuilder, Len.
  rewrite for_range_nth_error with
    (f := fun (_ : slot float) (b : Builder bool) => b ++ [Slot true false]).
  - exact (fold_append (fun _ : slot float => Slot true false) col []).
  - reflexivity.
Qed.

Lemma build_zscores_eq (diffs : array float) (stddev : float) :
  Main.build_zscores diffs stddev
  = Compute.map_valid (fun d => abs d / stddev) diffs.
Proof.
  unfold Main.build_zscores, NewArray, NewBuilder, Len, Compute.map_valid.
  rewrite for_range_nth_error with
    (f := fun (x : slot float) (b : Builder float) =>
            b ++ [if valid x then Slot true (abs (raw x) / stddev)
                  else Slot false go_zero]).
  - exact (fold_append
             (fun x : slot float =>
                if valid x then Slot true (abs (raw x) / stddev)
                else Slot false go_zero)
             diffs []).
  - intros i x b Hi. rewrite (IsNull_at _ _ _ Hi), (Value_at _ _ _ Hi).
    unfold Append, AppendNull. now destruct (valid x).
Qed.

Lemma build_mask_eq (zscores : array float) (threshold : float) :
  Main.build_mask zscores threshold
  = map (fun x => Slot true (valid x && (threshold <? raw x))) zscores.
Proof.
  unfold Main.build_mask, NewArray, NewBuilder, Len.
  rewrite for_range_nth_error with
    (f := fun (x : slot float) (b : Builder bool) =>
            b ++ [Slot true (valid x && (threshold <? raw x))]).
  - exact (fold_append
             (fun x : slot float => Slot true (valid x && (threshold <? raw x)))
             zscores []).
  - intros i x b Hi. rewrite (IsNull_at _ _ _ Hi), (Value_at _ _ _ Hi).
    unfold Append. now destruct (valid x).
Qed.

(** The anomalies, when the mask was computed row by row from the column. *)
Lemma extract_anomalies_eq (col : array float) (flag : slot float -> bool) :
  Main.extract_anomalies col (map (fun x => Slot true (flag x)) col)
  = map (fun x => Slot true (raw x)) (filter (fun x => flag x && valid x) col).
Proof.
  unfold Main.extract_anomalies, NewArray, NewBuilder, Len.
  rewrite for_range_nth_error with
    (f := fun (x : slot float) (b : Builder float) =>
            if flag x && valid x then b ++ [Slot true (raw x)] else b).
  - exact (fold_append_if (fun x => flag x && valid x)
             (fun x : slot float => Slot true (raw x)) col []).
  - intros i x b Hi.
    assert (Hm : nth_error (map (fun x => Slot true (flag x)) col) i
                 = Some (Slot true (flag x)))
      by (rewrite nth_error_map, Hi; reflexivity).
    rewrite (IsNull_at _ _ _ Hm), (Value_at _ _ _ Hm),
      (IsNull_at _ _ _ Hi), (Value_at _ _ _ Hi).
    cbn. now rewrite negb_involutive.
Qed.

Lemma mean_of_eq (col : array float) :
  Main.mean_of col = Spec.mean (Spec.valid_values col).
Proof. unfold Main.mean_of. now rewrite sum_and_count_eq. Qed.

Lemma sum_squares_diffs_eq (col : array float) (m : float) :
  Main.sum_squares (Main.build_diffs col m)
  = fold_left (fun acc v => acc + (v - m) * (v - m)) (Spec.valid_values col) 0.
Proof.
  now rewrite build_diffs_eq, sum_squares_eq, valid_values_map_valid, fold_left_map.
Qed.

Lemma stddev_of_eq (col : array float) :
  Main.stddev_of col = Spec.stddev (Spec.valid_values col).
Proof.
  unfold Main.stddev_of. rewrite sum_and_count_eq, sum_squares_diffs_eq.
  reflexivity.
Qed.

Lemma mask_eq (col : array float) (m s t : float) :
  Main.build_mask (Main.build_zscores (Main.build_diffs col m) s) t
  = map (fun x => Slot true (valid x && (t <? abs (raw x - m) / s))) col.
Proof.
  rewrite build_diffs_eq, build_zscores_eq, build_mask_eq.
  unfold Compute.map_valid. rewrite !map_map.
  apply map_ext. intros x. now destruct (valid x).
Qed.

Lemma anomalies_eq (col : array float) (p : float -> bool) :
  map (fun x => Slot true (raw x))
    (filter (fun x => (valid x && p (raw x)) && valid x) col)
  = of_values (filter p (Spec.valid_values col)).
Proof.
  unfold of_values, Spec.valid_values.
  induction col as [|x col IH]; cbn; [reflexivity|].
  destruct (valid x); cbn; [|exact IH].
  rewrite andb_true_r. destruct (p (raw x)); cbn; now rewrite IH.
Qed.

Lemma count_zero (vs : list float) :
  Z.eqb (Spec.count vs) 0 = match vs with [] => true | _ => false end.
Proof. destruct vs; cbn; [reflexivity|]. unfold Spec.count. cbn. lia. Qed.

(** [DetectAnomalies] as a function of the rows: the two guards, the
    zero-deviation branch, and the row-wise mask with the flagged values. *)
Lemma DetectAnomalies_eq (ctx : Context) (col : array float) (t : float) :
  Main.DetectAnomalies ctx col t =
  match col with
  | [] => (None, None, Some ErrEmptyColumn)
  | _ :: _ =>
      let vs := Spec.valid_values col in
      match vs with
      | [] => (None, None, Some ErrNoValidValues)
      | _ :: _ =>
          if Spec.stddev vs =? 0
          then (Some (map (fun _ => Slot true false) col), Some [], None)
          else
            (Some (map (fun x => Slot true (valid x && (t <? Spec.zscore vs (raw x))))
                     col),
             Some (of_values (filter (fun v => t <? Spec.zscore vs v) vs)),
             None)
      end
  end.
Proof.
  unfold Main.DetectAnomalies.
  destruct col as [|x0 col0]; [reflexivity|].
  set (col := x0 :: col0). cbn [Len List.length Nat.eqb].
  rewrite sum_and_count_eq, count_zero. cbv zeta.
  destruct (Spec.valid_values col) as [|v0 vs0] eqn:Hvs; [reflexivity|].
  rewrite <- Hvs.
  rewrite sum_squares_diffs_eq.
  change (PrimFloat.sqrt _) with (Spec.stddev (Spec.valid_values col)).
  destruct (Spec.stddev (Spec.valid_values col) =? 0) eqn:Hsd.
  - now rewrite false_mask_eq.
  - rewrite mask_eq.
    change (Spec.sum (Spec.valid_values col)
            / float64_of_int (Spec.count (Spec.valid_values col)))
      with (Spec.mean (Spec.valid_values col)).
    rewrite (extract_anomalies_eq col
               (fun x => valid x
                         && (t <? abs (raw x - Spec.mean (Spec.valid_values col))
                                  / Spec.stddev (Spec.valid_values col)))).
    rewrite (anomalies_eq col
               (fun v => t <? abs (v - Spec.mean (Spec.valid_values col))
                              / Spec.stddev (Spec.valid_values col))).
    reflexivity.
Qed.

Lemma valid_values_drop_nulls (col : array float) :
  Spec.valid_values (Spec.drop_nulls col) = Spec.valid_values col.
Proof.
  unfold Spec.valid_values, Spec.drop_nulls.
  induction col as [|x col IH]; cbn; [reflexivity|].
  destruct (valid x) eqn:E; cbn; rewrite ?E; cbn; now rewrite IH.
Qed.

Lemma at_valid_map {A B} (g : slot A -> slot B) (col : array A) :
  Spec.at_valid col (map g col) = map g (filter valid col).
Proof.
  unfold Spec.at_valid.
  induction col as [|x col IH]; cbn; [reflexivity|].
  destruct (valid x); cbn; now rewrite IH.
Qed.

Lemma flagged_values_map (flag : slot float -> bool) (col : array float) :
  Spec.flagged_values col (map (fun x => Slot true (flag x)) col)
  = map (fun x => Slot true (raw x)) (filter (fun x => flag x && valid x) col).
Proof.
  unfold Spec.flagged_values.
  induction col as [|x col IH]; cbn; [reflexivity|].
  destruct (flag x && valid x); cbn; now rewrite IH.
Qed.

(** A non-null row of a column whose deviation is not zero: the detector
    succeeds and the row's mask bit is the strict z-score test. *)
Lemma detect_valid_row (ctx : Context) (col : array float) (t : float)
    (i : nat) (v : float) :
  nth_error col i = Some (Slot true v) ->
  (Spec.stddev (Spec.valid_values col) =? 0) = false ->
  exists mask anomalies,
    Main.DetectAnomalies ctx col t = (Some mask, Some anomalies, None)
    /\ Len mask = Len col
    /\ nth_error mask i
       = Some (Slot true (t <? Spec.zscore (Spec.valid_values col) v)).
Proof.
  intros Hi Hsd.
  rewrite DetectAnomalies_eq.
  destruct col as [|x0 col0]; [destruct i; discriminate|].
  set (col := x0 :: col0) in *. cbv zeta.
  assert (Hin : In v (Spec.valid_values col)).
  { unfold Spec.valid_values. apply in_map_iff. exists (Slot true v).
    split; [reflexivity|]. apply filter_In. split; [|reflexivity].
    eapply nth_error_In; eassumption. }
  destruct (Spec.valid_values col) as [|v0 vs0] eqn:Hvs; [contradiction|].
  rewrite Hsd.
  eexists _, _. split; [reflexivity|].
  split; [apply length_map|].
  rewrite nth_error_map, Hi. reflexivity.
Qed.

Lemma filter_length_mono {A} (p q : A -> bool) (l : list A) :
  (forall x, p x = true -> q x = true) ->
  (List.length (filter p l) <= List.length (filter q l))%nat.
Proof.
  intros H. induction l as [|x l IH]; cbn; [lia|].
  destruct (p x) eqn:Hp.
  - rewrite (H x Hp). cbn. lia.
  - destruct (q x); cbn; lia.
Qed.

Lemma flagged_map_mono (f g : slot float -> bool) (col : array float) :
  (forall x, f x = true -> g x = true) ->
  (Spec.flagged (map (fun x => Slot true (f x)) col)
   <= Spec.flagged (map (fun x => Slot true (g x)) col))%nat.
Proof.
  intros H. unfold Spec.flagged.
  induction col as [|x col IH]; cbn; [lia|].
  destruct (f x) eqn:Hf.
  - rewrite (H x Hf). cbn. lia.
  - destruct (g x); cbn; lia.
Qed.

End MainFacts.

(** * The anomaly detector of src/super.go *)

Module DetectorClaims.

Import MainFacts.
Open Scope float_scope.

(** C1: for every column and threshold, if row [i] is non-null with value
    [v] and the population standard deviation of the non-null values is not
    zero, the detector succeeds and the mask bit of row [i] is
    [abs (v - mean) / stddev > threshold], strictly; a z-score equal to the
    threshold is not flagged. *)
Theorem mask_is_strict_zscore_test (ctx : Context) (col : array float)
    (threshold : float) (i : nat) (v : float) :
  nth_error col i = Some (Slot true v) ->
  (Spec.stddev (Spec.valid_values col) =? 0) = false ->
  exists mask anomalies,
    Main.DetectAnomalies ctx col threshold = (Some mask, Some anomalies, None)
    /\ Len mask = Len col
    /\ nth_error mask i
       = Some (Slot true
                 (threshold <? abs (v - Spec.mean (Spec.valid_values col))
                               / Spec.stddev (Spec.valid_values col)))
    /\ ((abs (v - Spec.mean (Spec.valid_values col))
          / Spec.stddev (Spec.valid_values col) =? threshold) = true ->
        nth_error mask i = Some (Slot true false)).
Proof.
  intros Hi Hsd.
  destruct (detect_valid_row ctx col threshold i v Hi Hsd)
    as (mask & anomalies & Hrun & Hlen & Hbit).
  exists mask, anomalies. unfold Spec.zscore in Hbit.
  repeat split; try assumption.
  intros Heq. rewrite Hbit.
  now rewrite (FloatFacts.eqb_true_ltb_false _ _ Heq).
Qed.

Lemma mask_is_strict_zscore_test_witness :
  nth_error Examples.scenario1 3 = Some (Slot true 100)
  /\ (Spec.stddev (Spec.valid_values Examples.scenario1) =? 0) = false
  /\ exists mask anomalies,
       Main.DetectAnomalies Background Examples.scenario1 1.99
       = (Some mask, Some anomalies, None)
       /\ Len mask = Len Examples.scenario1
       /\ nth_error mask 3
          = Some (Slot true
                    (1.99 <? abs (100 - Spec.mean (Spec.valid_values Examples.scenario1))
                             / Spec.stddev (Spec.valid_values Examples.scenario1)))
       /\ ((abs (100 - Spec.mean (Spec.valid_values Examples.scenario1))
             / Spec.stddev (Spec.valid_values Examples.scenario1) =? 1.99) = true ->
           nth_error mask 3 = Some (Slot true false)).
Proof.
  split; [reflexivity|]. split; [vm_compute; reflexivity|].
  apply (mask_is_strict_zscore_test Background Examples.scenario1 1.99 3 100);
    [reflexivity | vm_compute; reflexivity].
Defined.

(** C4: the detector returns an error and no result exactly when a
    precondition fails: the empty column gives the empty-input error, a
    non-empty column without a non-null row gives the no-valid-data error,
    and every other column gives a mask, an anomaly list and no error. *)
Theorem errors_exactly_on_failed_preconditions (ctx : Context)
    (col : array float) (threshold : float) :
  match col, Spec.valid_values col with
  | [], _ =>
      Main.DetectAnomalies ctx col threshold = (None, None, Some ErrEmptyColumn)
  | _ :: _, [] =>
      Main.DetectAnomalies ctx col threshold = (None, None, Some ErrNoValidValues)
  | _ :: _, _ :: _ =>
      exists mask anomalies,
        Main.DetectAnomalies ctx col threshold = (Some mask, Some anomalies, None)
  end.
Proof.
  rewrite DetectAnomalies_eq.
  destruct col as [|x0 col0]; [reflexivity|].
  cbv zeta. destruct (Spec.valid_values (x0 :: col0)) as [|v0 vs0]; [reflexivity|].
  destruct (Spec.stddev (v0 :: vs0) =? 0); eexists _, _; reflexivity.
Qed.

(** C9: on the column [1, 2, 3, 100, 2] with threshold 1.99 the detector
    flags index 3 and no other, and the anomaly list is [100].  The kernel
    detector that the test of part_011 runs sets the same mask. *)
Theorem scenario1_flags_only_100 :
  Main.DetectAnomalies Background Examples.scenario1 1.99
  = (Some (of_values [false; false; false; true; false]),
     Some (of_values [100]),
     None)
  /\ option_map Supercharged.Mask
       (fst (Supercharged.DetectAnomalies Compute.IEEEQuotient Background
               (Float64Col Examples.scenario1) 1.99))
     = Some (of_values [false; false; false; true; false])
  /\ option_map Supercharged.Mask
       (fst (Supercharged.DetectAnomalies Compute.RaisesError Background
               (Float64Col Examples.scenario1) 1.99))
     = Some (of_values [false; false; false; true; false]).
Proof. vm_compute. repeat split. Qed.

(** C10: the detector does not depend on its context: two contexts, done
    or not, give the same triple (a cancelled context the same as the
    background context), and the error is never a cancellation. *)
Theorem context_is_ignored (ctx1 ctx2 : Context) (col : array float)
    (threshold : float) :
  Main.DetectAnomalies ctx1 col threshold = Main.DetectAnomalies ctx2 col threshold
  /\ Main.DetectAnomalies Cancelled col threshold
     = Main.DetectAnomalies Background col threshold
  /\ snd (Main.DetectAnomalies ctx1 col threshold) <> Some ErrCanceled
  /\ snd (Main.DetectAnomalies ctx1 col threshold) <> Some ErrDeadlineExceeded.
Proof.
  split; [reflexivity|]. split; [reflexivity|].
  rewrite DetectAnomalies_eq.
  destruct col as [|x0 col0]; [split; discriminate|].
  cbv zeta. destruct (Spec.valid_values (x0 :: col0)) as [|v0 vs0];
    [split; discriminate|].
  destruct (Spec.stddev (v0 :: vs0) =? 0); split; discriminate.
Qed.

(** C5 fails on the code: three non-null rows holding the same value 0.1
    have the computed mean 0.10000000000000002, so the computed deviation
    is not zero, every z-score is 1, and a threshold of 0.5 flags all
    three rows. *)
Theorem identical_inexact_values_are_flagged :
  Spec.valid_values Examples.three_tenths = [0.1; 0.1; 0.1]
  /\ Main.mean_of Examples.three_tenths = 0.10000000000000002
  /\ Main.stddev_of Examples.three_tenths = 1.3877787807814457e-17
  /\ Spec.zscore (Spec.valid_values Examples.three_tenths) 0.1 = 1
  /\ Main.DetectAnomalies Background Examples.three_tenths 0.5
     = (Some (of_values [true; true; true]),
        Some (of_values [0.1; 0.1; 0.1]),
        None).
Proof. vm_compute. repeat split. Qed.

(** The part of C5 the code does keep: whenever the deviation it computes
    is zero, the detector succeeds with an all-false mask and no anomaly,
    whatever the threshold. *)
Theorem zero_deviation_flags_nothing (ctx : Context) (col : array float)
    (threshold : float) :
  Spec.valid_values col <> [] ->
  (Spec.stddev (Spec.valid_values col) =? 0) = true ->
  Main.DetectAnomalies ctx col threshold
  = (Some (map (fun _ => Slot true false) col), Some [], None).
Proof.
  intros Hvs Hsd. rewrite DetectAnomalies_eq.
  destruct col as [|x0 col0]; [contradiction Hvs; reflexivity|].
  cbv zeta. destruct (Spec.valid_values (x0 :: col0)) as [|v0 vs0];
    [contradiction Hvs; reflexivity|].
  now rewrite Hsd.
Qed.

Lemma zero_deviation_flags_nothing_witness :
  Spec.valid_values Examples.three_hundreds <> []
  /\ (Spec.stddev (Spec.valid_values Examples.three_hundreds) =? 0) = true
  /\ Main.DetectAnomalies Background Examples.three_hundreds 3
     = (Some (map (fun _ => Slot true false) Examples.three_hundreds), Some [], None).
Proof.
  split; [discriminate|]. split; [vm_compute; reflexivity|].
  apply (zero_deviation_flags_nothing Background Examples.three_hundreds 3);
    [discriminate | vm_compute; reflexivity].
Defined.

(** C6: null rows neither influence nor appear in the output.  For a
    column with a non-null row, the mean and the deviation the detector
    computes, the mask bits at the non-null rows and the anomaly list are
    those of the same column with the null rows removed; a null row has
    mask bit false, and the anomaly list holds exactly the values of the
    non-null rows whose mask bit is set. *)
Theorem nulls_do_not_influence (ctx : Context) (col : array float)
    (threshold : float) :
  Spec.valid_values col <> [] ->
  Main.mean_of col = Main.mean_of (Spec.drop_nulls col)
  /\ Main.stddev_of col = Main.stddev_of (Spec.drop_nulls col)
  /\ exists mask anomalies mask',
       Main.DetectAnomalies ctx col threshold = (Some mask, Some anomalies, None)
       /\ Main.DetectAnomalies ctx (Spec.drop_nulls col) threshold
          = (Some mask', Some anomalies, None)
       /\ Spec.at_valid col mask = mask'
       /\ anomalies = Spec.flagged_values col mask
       /\ forall i, (i < Len col)%nat -> IsNull col i = true ->
                    nth_error mask i = Some (Slot true false).
Proof.
  intros Hvs.
  rewrite !mean_of_eq, !stddev_of_eq, valid_values_drop_nulls.
  split; [reflexivity|]. split; [reflexivity|].
  rewrite !DetectAnomalies_eq. cbv zeta. rewrite valid_values_drop_nulls.
  assert (Hnull : forall (flag : slot float -> bool) i,
             (i < Len col)%nat -> IsNull col i = true ->
             nth_error (map (fun x => Slot true (valid x && flag x)) col) i
             = Some (Slot true false)).
  { intros flag i Hi Hn. unfold IsNull in Hn. rewrite nth_error_map.
    destruct (nth_error col i) as [x|] eqn:E; [|discriminate].
    cbn. destruct (valid x); [discriminate|reflexivity]. }
  destruct col as [|x0 col0]; [contradiction Hvs; reflexivity|].
  set (col := x0 :: col0) in *.
  destruct (Spec.drop_nulls col) as [|y0 col1] eqn:Hdrop.
  { exfalso. apply Hvs. rewrite <- valid_values_drop_nulls, Hdrop. reflexivity. }
  rewrite <- Hdrop. clear Hdrop y0 col1.
  destruct (Spec.valid_values col) as [|v0 vs0] eqn:Hv; [contradiction Hvs; reflexivity|].
  set (vs := v0 :: vs0) in *.
  destruct (Spec.stddev vs =? 0).
  - eexists _, _, _. split; [reflexivity|]. split; [reflexivity|].
    split; [apply (at_valid_map (fun _ => Slot true false))|].
    split.
    + rewrite (flagged_values_map (fun _ => false)). cbn [andb].
      clear. induction col0 as [|y l IH]; [reflexivity|exact IH].
    + intros i Hi Hn. generalize (Hnull (fun _ => false) i Hi Hn).
      rewrite !nth_error_map. destruct (nth_error col i) as [x|]; cbn; [|discriminate].
      reflexivity.
  - eexists _, _, _. split; [reflexivity|]. split; [reflexivity|].
    split; [apply (at_valid_map
                     (fun x => Slot true
                        (valid x && (threshold <? Spec.zscore vs (raw x)))))|].
    split.
    + rewrite (flagged_values_map
                 (fun x => valid x && (threshold <? Spec.zscore vs (raw x)))).
      pose proof (anomalies_eq col (fun v => threshold <? Spec.zscore vs v)) as HA.
      rewrite Hv in HA. symmetry. exact HA.
    + intros i Hi Hn. apply (Hnull (fun x => threshold <? Spec.zscore vs (raw x)) i Hi Hn).
Qed.

Lemma nulls_do_not_influence_witness :
  Spec.valid_values Examples.scenario3 <> []
  /\ Main.mean_of Examples.scenario3 = Main.mean_of (Spec.drop_nulls Examples.scenario3)
  /\ Main.stddev_of Examples.scenario3
     = Main.stddev_of (Spec.drop_nulls Examples.scenario3)
  /\ exists mask anomalies mask',
       Main.DetectAnomalies Background Examples.scenario3 1.5
       = (Some mask, Some anomalies, None)
       /\ Main.DetectAnomalies Background (Spec.drop_nulls Examples.scenario3) 1.5
          = (Some mask', Some anomalies, None)
       /\ Spec.at_valid Examples.scenario3 mask = mask'
       /\ anomalies = Spec.flagged_values Examples.scenario3 mask
       /\ forall i, (i < Len Examples.scenario3)%nat ->
                    IsNull Examples.scenario3 i = true ->
                    nth_error mask i = Some (Slot true false).
Proof.
  split; [discriminate|].
  apply (nulls_do_not_influence Background Examples.scenario3 1.5). discriminate.
Defined.

(** C7 fails on the code: with two equal values the deviation is zero and
    nothing is flagged whatever the threshold, and at threshold zero a
    value at the mean has z-score zero and is not flagged. *)
Lemma nonpositive_threshold_counterexample :
  ((-1 <=? 0) = true
   /\ ~ Spec.flags_every_valid_row Examples.two_fives
         (Main.DetectAnomalies Background Examples.two_fives (-1)))
  /\ ((0 <=? 0) = true
      /\ ~ Spec.flags_every_valid_row Examples.ramp
            (Main.DetectAnomalies Background Examples.ramp 0)).
Proof.
  split; (split; [reflexivity|]); intros H.
  - destruct (H 0%nat 5 eq_refl) as (mask & anomalies & Hrun & Hbit).
    vm_compute in Hrun. injection Hrun as <- <-. discriminate Hbit.
  - destruct (H 1%nat 2 eq_refl) as (mask & anomalies & Hrun & Hbit).
    vm_compute in Hrun. injection Hrun as <- <-. discriminate Hbit.
Qed.

(** C7, amended: when the deviation is not zero, a threshold at or below
    zero flags every non-null row whose z-score is a number (not NaN) that
    does not compare equal to the threshold. *)
Theorem nonpositive_threshold_flags_rows_off_threshold (ctx : Context)
    (col : array float) (threshold : float) (i : nat) (v : float) :
  nth_error col i = Some (Slot true v) ->
  (threshold <=? 0) = true ->
  (Spec.stddev (Spec.valid_values col) =? 0) = false ->
  is_nan (Spec.zscore (Spec.valid_values col) v) = false ->
  (Spec.zscore (Spec.valid_values col) v =? threshold) = false ->
  Spec.flags_row (Main.DetectAnomalies ctx col threshold) i.
Proof.
  intros Hi Ht Hsd Hnan Hne.
  destruct (detect_valid_row ctx col threshold i v Hi Hsd)
    as (mask & anomalies & Hrun & _ & Hbit).
  exists mask, anomalies. split; [exact Hrun|].
  rewrite Hbit. do 2 f_equal.
  unfold Spec.zscore, Spec.stddev in *.
  now apply FloatFacts.nonpositive_ltb_zscore.
Qed.

Lemma nonpositive_threshold_flags_rows_off_threshold_witness :
  nth_error Examples.ramp 0 = Some (Slot true 1)
  /\ (-1 <=? 0) = true
  /\ (Spec.stddev (Spec.valid_values Examples.ramp) =? 0) = false
  /\ is_nan (Spec.zscore (Spec.valid_values Examples.ramp) 1) = false
  /\ (Spec.zscore (Spec.valid_values Examples.ramp) 1 =? -1) = false
  /\ Spec.flags_row (Main.DetectAnomalies Background Examples.ramp (-1)) 0.
Proof.
  repeat (split; [vm_compute; reflexivity|]).
  apply (nonpositive_threshold_flags_rows_off_threshold
           Background Examples.ramp (-1) 0 1);
    vm_compute; reflexivity.
Defined.

(** C8: for a fixed column, the detector reports no more anomalies (and
    sets no more mask bits) at the higher of two thresholds. *)
Theorem raising_threshold_never_adds_anomalies (ctx : Context)
    (col : array float) (t1 t2 : float) :
  (t1 <=? t2) = true ->
  (Spec.anomaly_count (Main.DetectAnomalies ctx col t2)
   <= Spec.anomaly_count (Main.DetectAnomalies ctx col t1))%nat
  /\ (Spec.flagged_count (Main.DetectAnomalies ctx col t2)
      <= Spec.flagged_count (Main.DetectAnomalies ctx col t1))%nat.
Proof.
  intros Hle. rewrite !DetectAnomalies_eq.
  destruct col as [|x0 col0]; [cbn; lia|].
  cbv zeta. destruct (Spec.valid_values (x0 :: col0)) as [|v0 vs0]; [cbn; lia|].
  destruct (Spec.stddev (v0 :: vs0) =? 0); [split; reflexivity|].
  assert (Hmono : forall z, (t2 <? z) = true -> (t1 <? z) = true)
    by (intros z; apply FloatFacts.leb_ltb_trans; exact Hle).
  split.
  - unfold Spec.anomaly_count, Len, of_values. rewrite !length_map.
    apply filter_length_mono. intros z. apply Hmono.
  - unfold Spec.flagged_count.
    apply (flagged_map_mono
             (fun x => valid x && (t2 <? Spec.zscore (v0 :: vs0) (raw x)))
             (fun x => valid x && (t1 <? Spec.zscore (v0 :: vs0) (raw x)))).
    intros x Hx. apply andb_true_iff in Hx as [Hv Hz].
    now rewrite Hv, (Hmono _ Hz).
Qed.

Lemma raising_threshold_never_adds_anomalies_witness :
  (1 <=? 1.9) = true
  /\ (Spec.anomaly_count (Main.DetectAnomalies Background Examples.scenario2 1.9)
      <= Spec.anomaly_count (Main.DetectAnomalies Background Examples.scenario2 1))%nat
  /\ (Spec.flagged_count (Main.DetectAnomalies Background Examples.scenario2 1.9)
      <= Spec.flagged_count (Main.DetectAnomalies Background Examples.scenario2 1))%nat.
Proof.
  split; [reflexivity|].
  apply (raising_threshold_never_adds_anomalies Background Examples.scenario2 1 1.9).
  reflexivity.
Defined.

End DetectorClaims.

(** * The compute-kernel detectors of part_008 and part_007 *)

Module VariantFacts.

Import LoopFacts MainFacts.
Open Scope float_scope.

Lemma sums_fold (col : array float) (s q : float) (c : Z) :
  fold_left
    (fun (acc : float * float * Z) (x : slot float) =>
       let '(sum, sumsq, count) := acc in
       if negb (valid x) then (sum, sumsq, count)
       else (sum + raw x, sumsq + raw x * raw x, (count + 1)%Z))
    col (s, q, c)
  = (fold_left PrimFloat.add (Spec.valid_values col) s,
     fold_left (fun a v => a + v * v) (Spec.valid_values col) q,
     (c + Spec.count (Spec.valid_values col))%Z).
Proof.
  unfold Spec.valid_values, Spec.count.
  revert s q c. induction col as [|x col IH]; intros s q c; cbn.
  - now rewrite Z.add_0_r.
  - destruct (valid x); cbn [negb]; rewrite IH; cbn [filter map fold_left List.length].
    + f_equal. lia.
    + reflexivity.
Qed.

Lemma sums_and_count_eq (col : array float) :
  Supercharged.sums_and_count col
  = (Spec.sum (Spec.valid_values col),
     fold_left (fun a v => a + v * v) (Spec.valid_values col) 0,
     Spec.count (Spec.valid_values col)).
Proof.
  unfold Supercharged.sums_and_count, Len.
  rewrite for_range_nth_error with
    (f := fun (x : slot float) (acc : float * float * Z) =>
            let '(sum, sumsq, count) := acc in
            if negb (valid x) then (sum, sumsq, count)
            else (sum + raw x, sumsq + raw x * raw x, (count + 1)%Z)).
  - apply sums_fold.
  - intros i x [[s q] c] Hi.
    now rewrite (IsNull_at _ _ _ Hi), (Value_at _ _ _ Hi).
Qed.

Lemma sq_diffs_fold (col : array float) (m acc : float) :
  fold_left
    (fun (variance : float) (x : slot float) =>
       if negb (valid x) then variance
       else variance + (raw x - m) * (raw x - m))
    col acc
  = fold_left (fun a v => a + (v - m) * (v - m)) (Spec.valid_values col) acc.
Proof.
  unfold Spec.valid_values.
  revert acc. induction col as [|x col IH]; intros acc; cbn; [reflexivity|].
  destruct (valid x); cbn; apply IH.
Qed.

Lemma sum_sq_diffs_eq (col : array float) (m : float) :
  Supercharged.sum_sq_diffs col m
  = fold_left (fun a v => a + (v - m) * (v - m)) (Spec.valid_values col) 0.
Proof.
  unfold Supercharged.sum_sq_diffs, Len.
  rewrite for_range_nth_error with
    (f := fun (x : slot float) (variance : float) =>
            if negb (valid x) then variance
            else variance + (raw x - m) * (raw x - m)).
  - apply sq_diffs_fold.
  - intros i x a Hi. now rewrite (IsNull_at _ _ _ Hi), (Value_at _ _ _ Hi).
Qed.

(** [computeMeanAndVariance] returns the population mean and variance of
    the non-null values, and (0, 0) when there is none. *)
Lemma computeMeanAndVariance_eq (col : array float) :
  Supercharged.computeMeanAndVariance col
  = match Spec.valid_values col with
    | [] => (0, 0)
    | _ :: _ =>
        (Spec.mean (Spec.valid_values col), Spec.variance (Spec.valid_values col))
    end.
Proof.
  unfold Supercharged.computeMeanAndVariance.
  rewrite sums_and_count_eq, count_zero.
  destruct (Spec.valid_values col) as [|v0 vs0] eqn:Hvs; [reflexivity|].
  rewrite <- Hvs, sum_sq_diffs_eq. reflexivity.
Qed.

Lemma map_valid_map_valid {A B C} `{GoZero B} `{GoZero C}
    (f : A -> B) (g : B -> C) (a : array A) :
  Compute.map_valid g (Compute.map_valid f a)
  = Compute.map_valid (fun v => g (f v)) a.
Proof.
  unfold Compute.map_valid. rewrite map_map. apply map_ext.
  intros x. now destruct (valid x).
Qed.

Lemma existsb_valid_map_valid {A B} `{GoZero B} (f : A -> B) (a : array A) :
  existsb valid (Compute.map_valid f a) = existsb valid a.
Proof.
  unfold Compute.map_valid. induction a as [|x a IH]; cbn; [reflexivity|].
  rewrite IH. now destruct (valid x).
Qed.

(** The kernel pipeline in closed form, for a live context: it fails only
    in the division, and only under the reading in which a zero divisor
    raises.  A null row is null in the z-scores and in the mask; its mask
    cell holds the comparison of the zero cell with the threshold. *)
Lemma detect_with_eq (zd : Compute.ZeroDivisor) (ctx : Context)
    (col : array float) (m s t : float) :
  ctx_err ctx = None ->
  Supercharged.detect_with zd ctx col m s t
  = if match zd with
       | Compute.IEEEQuotient => false
       | Compute.RaisesError => (s =? 0) && existsb valid col
       end
    then (None, Some (ErrWrapped "divide computation" ErrDivideByZero))
    else (Some {| Supercharged.Mask :=
                    map (fun x =>
                           if valid x
                           then Slot true (t <=? abs ((raw x - m) / s))
                           else Slot false (t <=? 0)) col;
                  Supercharged.Zscore :=
                    Compute.map_valid (fun v => (v - m) / s) col |}, None).
Proof.
  intros Hctx.
  assert (Hmask :
    Compute.map_cells (fun v => t <=? v)
      (Compute.map_valid PrimFloat.abs
         (Compute.map_valid (fun v => v / s)
            (Compute.map_valid (fun v => v - m) col)))
    = map (fun x =>
             if valid x
             then Slot true (t <=? abs ((raw x - m) / s))
             else Slot false (t <=? 0)) col).
  { rewrite !map_valid_map_valid.
    unfold Compute.map_cells, Compute.map_valid. rewrite map_map.
    apply map_ext. intros x. now destruct (valid x). }
  unfold Supercharged.detect_with, Compute.subtract, Compute.divide,
    Compute.abs, Compute.greater_equal.
  rewrite Hctx, existsb_valid_map_valid.
  destruct zd; [|destruct ((s =? 0) && existsb valid col); [reflexivity|]];
    now rewrite Hmask, map_valid_map_valid.
Qed.

Lemma no_valid_row (col : array float) :
  Spec.valid_values col = [] ->
  existsb valid col = false
  /\ forall (B : Type) (z : GoZero B) (f : float -> B),
       Compute.map_valid f col = map (fun _ => Slot false go_zero) col.
Proof.
  unfold Spec.valid_values, Compute.map_valid.
  induction col as [|x col IH]; cbn; intros Hv; [split; reflexivity|].
  destruct (valid x); [discriminate|].
  destruct (IH Hv) as [He Hm]. split; [exact He|].
  intros B z f. now rewrite Hm.
Qed.

Lemma no_valid_in {A} (col : array A) :
  existsb valid col = false -> forall x, In x col -> valid x = false.
Proof.
  intros He x Hx. destruct (valid x) eqn:Hvx; [|reflexivity].
  assert (existsb valid col = true) by (apply existsb_exists; eauto).
  congruence.
Qed.

(** The mask of the kernel pipeline at a non-null row, for a divisor that
    is a nonzero square root. *)
Lemma detect_with_valid_row (zd : Compute.ZeroDivisor) (ctx : Context)
    (col : array float) (m var t : float) (i : nat) (v : float) :
  ctx_err ctx = None ->
  nth_error col i = Some (Slot true v) ->
  (PrimFloat.sqrt var =? 0) = false ->
  exists res,
    Supercharged.detect_with zd ctx col m (PrimFloat.sqrt var) t = (Some res, None)
    /\ Len (Supercharged.Mask res) = Len col
    /\ nth_error (Supercharged.Mask res) i
       = Some (Slot true (t <=? abs (v - m) / PrimFloat.sqrt var)).
Proof.
  intros Hctx Hi Hs.
  rewrite (detect_with_eq zd ctx col m _ t Hctx), Hs. cbn [andb].
  assert (Hno : match zd with
                | Compute.IEEEQuotient => false
                | Compute.RaisesError => false
                end = false) by now destruct zd.
  rewrite Hno.
  eexists. split; [reflexivity|]. cbn [Supercharged.Mask].
  unfold Len. rewrite length_map. split; [reflexivity|].
  rewrite nth_error_map, Hi. cbn.
  now rewrite (FloatFacts.abs_div_sqrt _ _ Hs).
Qed.

(** Both kernel detectors on a non-null row of a column whose deviation is
    not zero. *)
Lemma kernel_detectors_valid_row (zd : Compute.ZeroDivisor) (ctx : Context)
    (col : array float) (t : float) (i : nat) (v : float) :
  ctx_err ctx = None ->
  nth_error col i = Some (Slot true v) ->
  (Spec.stddev (Spec.valid_values col) =? 0) = false ->
  exists res,
    Supercharged.DetectAnomalies zd ctx (Float64Col col) t = (Some res, None)
    /\ SuperchargedSqrt.DetectAnomalies zd ctx (Float64Col col) t = (Some res, None)
    /\ Len (Supercharged.Mask res) = Len col
    /\ nth_error (Supercharged.Mask res) i
       = Some (Slot true (t <=? Spec.zscore (Spec.valid_values col) v)).
Proof.
  intros Hctx Hi Hsd.
  assert (Hin : In v (Spec.valid_values col)).
  { unfold Spec.valid_values. apply in_map_iff. exists (Slot true v).
    split; [reflexivity|]. apply filter_In. split; [|reflexivity].
    eapply nth_error_In; eassumption. }
  unfold Supercharged.DetectAnomalies, SuperchargedSqrt.DetectAnomalies,
    Compute.sqrt.
  rewrite Hctx, computeMeanAndVariance_eq.
  destruct (Spec.valid_values col) as [|v0 vs0] eqn:Hvs; [contradiction|].
  destruct (detect_with_valid_row zd ctx col (Spec.mean (v0 :: vs0))
              (Spec.variance (v0 :: vs0)) t i v Hctx Hi Hsd)
    as (res & Hres & Hrlen & Hrbit).
  exists res. repeat split; assumption.
Qed.













End VariantFacts.

Module VariantClaims.

Import MainFacts VariantFacts.
Open Scope float_scope.




(** The kernel detectors by themselves: under the same conditions the mask
    bit of a non-null row is [z >= threshold], boundary included. *)
Theorem kernel_mask_is_inclusive_zscore_test (zd : Compute.ZeroDivisor)
    (ctx : Context) (col : array float) (threshold : float)
    (i : nat) (v : float) :
  ctx_err ctx = None ->
  nth_error col i = Some (Slot true v) ->
  (Spec.stddev (Spec.valid_values col) =? 0) = false ->
  exists res,
    Supercharged.DetectAnomalies zd ctx (Float64Col col) threshold
    = (Some res, None)
    /\ SuperchargedSqrt.DetectAnomalies zd ctx (Float64Col col) threshold
       = (Some res, None)
    /\ nth_error (Supercharged.Mask res) i
       = Some (Slot true (threshold <=? Spec.zscore (Spec.valid_values col) v)).
Proof.
  intros Hctx Hi Hsd.
  destruct (kernel_detectors_valid_row zd ctx col threshold i v Hctx Hi Hsd)
    as (res & Hres & Hres' & _ & Hrbit).
  exists res. repeat split; assumption.
Qed.

Lemma kernel_mask_is_inclusive_zscore_test_witness :
  ctx_err Background = None
  /\ nth_error Examples.zero_two 1 = Some (Slot true 2)
  /\ (Spec.stddev (Spec.valid_values Examples.zero_two) =? 0) = false
  /\ exists res,
       Supercharged.DetectAnomalies Compute.IEEEQuotient Background
         (Float64Col Examples.zero_two) 1
       = (Some res, None)
       /\ SuperchargedSqrt.DetectAnomalies Compute.IEEEQuotient Background
            (Float64Col Examples.zero_two) 1
          = (Some res, None)
       /\ nth_error (Supercharged.Mask res) 1
          = Some (Slot true (1 <=? Spec.zscore (Spec.valid_values Examples.zero_two) 2)).
Proof.
  split; [reflexivity|]. split; [reflexivity|]. split; [vm_compute; reflexivity|].
  apply (kernel_mask_is_inclusive_zscore_test Compute.IEEEQuotient Background
           Examples.zero_two 1 1 2);
    [reflexivity | reflexivity | vm_compute; reflexivity].
Defined.

End VariantClaims.

(** * The column extractors of src/super.go and part_005 *)

Module ExtractorFacts.

(** The read loop hands over every pending batch, in order, and leaves the
    reader at its end with the input's failure as its error. *)
Lemma ReadAll_loop_drains (pend : list RecordBatch) :
  forall (fuel : nat) (c : option RecordBatch) (fail e : option error)
         (acc : list RecordBatch),
    (List.length pend < fuel)%nat ->
    Main.ReadAll_loop fuel
      {| Csv.cur := c; Csv.pending := pend; Csv.failure := fail; Csv.err := e |}
      acc
    = (acc ++ pend,
       {| Csv.cur := None; Csv.pending := []; Csv.failure := None;
          Csv.err := match e with Some e' => Some e' | None => fail end |}).
Proof.
  induction pend as [|b pend IH]; intros fuel c fail e acc Hfuel;
    (destruct fuel as [|fuel]; [cbn in Hfuel; lia|]); cbn.
  - now rewrite app_nil_r.
  - rewrite IH by (cbn in Hfuel; lia). now rewrite <- app_assoc.
Qed.

Lemma Chan_loop_is_ReadAll_loop (fuel : nat) :
  forall rd acc, Csvreader.Chan_loop fuel rd acc = Main.ReadAll_loop fuel rd acc.
Proof.
  induction fuel as [|fuel IH]; intros rd acc; cbn; [reflexivity|].
  destruct (Csv.Next rd) as [more rd']. destruct more; [|reflexivity].
  destruct (Csv.Record_ rd'); apply IH.
Qed.

Lemma ReadAll_open (s : Schema) (batches : list RecordBatch)
    (failure : option error) :
  fst (Main.ReadAll {| Main.schema := s; Main.reader := Csv.open batches failure |})
  = match failure with
    | Some e => ([], Some (ErrReadingCSV e))
    | None => (batches, None)
    end.
Proof.
  unfold Main.ReadAll, Csv.open. cbn [Main.reader Csv.pending].
  rewrite ReadAll_loop_drains by lia. cbn.
  destruct failure; reflexivity.
Qed.

Lemma Chan_open (s : Schema) (batches : list RecordBatch)
    (failure : option error) :
  Csvreader.Chan (Csvreader.NewCSVReader (Csv.open batches failure) s)
  = (batches, match failure with
              | Some e => Some (ErrReadingCSV e)
              | None => None
              end).
Proof.
  unfold Csvreader.Chan, Csvreader.NewCSVReader, Csv.open.
  cbn [Csvreader.reader Csv.pending].
  rewrite Chan_loop_is_ReadAll_loop, ReadAll_loop_drains by lia. cbn.
  destruct failure; reflexivity.
Qed.

(** When the index is in range for every record, the chunks are the
    records' columns at that index, in record order. *)
Lemma Main_collect_chunks_in_range (records : list RecordBatch) (idx : Z) :
  Forall (fun b => (idx < Z.of_nat (NumCols b))%Z) records ->
  forall acc,
    Main.collect_chunks records idx acc
    = (acc ++ map (fun b => nth (Z.to_nat idx) (Columns b) (Float64Col [])) records,
       None).
Proof.
  induction 1 as [|b records Hb _ IH]; intros acc; cbn.
  - now rewrite app_nil_r.
  - destruct (idx >=? Z.of_nat (NumCols b))%Z eqn:E; [lia|].
    rewrite IH, <- app_assoc. reflexivity.
Qed.

(** The chunks part_005 collects when every batch holds the named column
    as a Float64 array. *)
Lemma Csvreader_collect_chunks_float64 (name : string)
    (batches : list RecordBatch) (chunks : list (array float)) :
  Forall2
    (fun b a =>
       exists i more,
         Csvreader.FieldIndices (RecSchema b) name = i :: more
         /\ nth_error (Columns b) i = Some (Float64Col a))
    batches chunks ->
  forall acc,
    Csvreader.collect_chunks batches name acc
    = (acc ++ map Float64Col chunks, None).
Proof.
  induction 1 as [|b a batches chunks (i & more & Hidx & Hcol) _ IH];
    intros acc; cbn.
  - now rewrite app_nil_r.
  - rewrite Hidx, (nth_error_nth _ _ _ Hcol), IH, <- app_assoc. reflexivity.
Qed.

Lemma concat_into_float64 (chunks : list (array float)) :
  forall a,
    ArrayLib.concat_into (Float64Col a) (map Float64Col chunks)
    = Some (Float64Col (a ++ List.concat chunks)).
Proof.
  induction chunks as [|c chunks IH]; intros a; cbn.
  - now rewrite app_nil_r.
  - rewrite IH, <- app_assoc. reflexivity.
Qed.

Lemma total_rows_from (batches : list RecordBatch) (n : nat) :
  fold_left (fun k b => (k + NumRows b)%nat) batches n
  = (n + Spec.total_rows batches)%nat.
Proof.
  unfold Spec.total_rows. revert n.
  induction batches as [|b batches IH]; intros n; cbn; [lia|].
  rewrite IH, (IH (NumRows b)). lia.
Qed.

End ExtractorFacts.

Module ExtractorClaims.

Import ExtractorFacts.

(** C2 fails on src/super.go: an input that parses into two batches of one
    row each, [[1]] and [[2]], has two rows in all, and [ReadSingleColumn]
    returns the one-row column of the first batch; the extractor of
    part_005 returns the two rows on the same input. *)
Theorem multi_batch_extract_keeps_first_batch_only :
  Spec.total_rows Examples.two_batches = 2%nat
  /\ fst (Main.ReadSingleColumn Examples.two_batch_reader "x")
     = (Some (Float64Col (of_values [1%float])), None)
  /\ Csvreader.ReadSingleColumn
       (Csvreader.NewCSVReader (Csv.open [] None) [{| Name := "x" |}])
       (Csv.open Examples.two_batches None) "x"
     = (Some (Float64Col (of_values [1%float; 2%float])), None).
Proof. repeat split. Qed.

(** src/super.go, in general: on an input of one or more batches read
    without error, with the column found at an index in range for every
    batch, [ReadSingleColumn] returns the column of the first batch. *)
Theorem super_extract_returns_first_chunk (s : Schema) (b0 : RecordBatch)
    (rest : list RecordBatch) (name : string) :
  (0 <= Main.find_column s name 0)%Z ->
  Forall (fun b => (Main.find_column s name 0 < Z.of_nat (NumCols b))%Z)
    (b0 :: rest) ->
  fst (Main.ReadSingleColumn
         {| Main.schema := s; Main.reader := Csv.open (b0 :: rest) None |} name)
  = (Some (nth (Z.to_nat (Main.find_column s name 0)) (Columns b0) (Float64Col [])),
     None).
Proof.
  intros Hidx Hrange.
  unfold Main.ReadSingleColumn.
  pose proof (ReadAll_open s (b0 :: rest) None) as Hread.
  destruct (Main.ReadAll _) as [[records err] cr']. cbn in Hread.
  injection Hread as -> ->.
  cbn [List.length Nat.eqb Main.schema].
  destruct (Main.find_column s name 0 =? -1)%Z eqn:E; [lia|].
  rewrite (Main_collect_chunks_in_range _ _ Hrange []).
  cbn. destruct (List.length (map _ rest) =? 0)%nat; reflexivity.
Qed.

Lemma super_extract_returns_first_chunk_witness :
  (0 <= Main.find_column [{| Name := "x" |}] "x" 0)%Z
  /\ Forall (fun b => (Main.find_column [{| Name := "x" |}] "x" 0
                       < Z.of_nat (NumCols b))%Z) Examples.two_batches
  /\ fst (Main.ReadSingleColumn Examples.two_batch_reader "x")
     = (Some (nth (Z.to_nat (Main.find_column [{| Name := "x" |}] "x" 0))
                (Columns (Examples.batch "x" [1%float])) (Float64Col [])),
        None).
Proof.
  assert (H0 : (0 <= Main.find_column [{| Name := "x" |}] "x" 0)%Z)
    by (cbn; lia).
  assert (H1 : Forall (fun b => (Main.find_column [{| Name := "x" |}] "x" 0
                                 < Z.of_nat (NumCols b))%Z) Examples.two_batches)
    by (repeat constructor).
  split; [exact H0|]. split; [exact H1|].
  exact (super_extract_returns_first_chunk [{| Name := "x" |}]
           (Examples.batch "x" [1%float]) [Examples.batch "x" [2%float]] "x" H0 H1).
Defined.

(** part_005: on an input of one or more batches read without error, each
    holding the named column as a Float64 array, [ReadSingleColumn] returns
    the concatenation of those arrays in batch order, validity bits
    included; for well-formed batches its length is the total row count. *)
Theorem csvreader_extract_concatenates (cr : Csvreader.CSVReader)
    (batches : list RecordBatch) (chunks : list (array float)) (name : string) :
  batches <> [] ->
  Forall well_formed batches ->
  Forall2
    (fun b a =>
       exists i more,
         Csvreader.FieldIndices (RecSchema b) name = i :: more
         /\ nth_error (Columns b) i = Some (Float64Col a))
    batches chunks ->
  Csvreader.ReadSingleColumn cr (Csv.open batches None) name
  = (Some (Float64Col (List.concat chunks)), None)
  /\ Len (List.concat chunks) = Spec.total_rows batches.
Proof.
  intros Hne Hwf Hcols. split.
  - unfold Csvreader.ReadSingleColumn.
    rewrite Chan_open, (Csvreader_collect_chunks_float64 _ _ _ Hcols []).
    cbn [app]. destruct Hcols as [|b a batches chunks _ Hrest]; [contradiction|].
    cbn. now rewrite concat_into_float64.
  - clear Hne. induction Hcols as [|b a batches chunks (i & more & _ & Hcol) _ IH].
    + reflexivity.
    + inversion Hwf as [|? ? Hb Hwf']; subst.
      unfold Spec.total_rows. cbn. rewrite total_rows_from.
      unfold Len in *. rewrite length_app, (IH Hwf').
      f_equal. unfold well_formed in Hb. rewrite Forall_forall in Hb.
      apply (Hb (Float64Col a)). eapply nth_error_In; eassumption.
Qed.

Lemma csvreader_extract_concatenates_witness :
  Examples.two_batches <> []
  /\ Csvreader.ReadSingleColumn
       (Csvreader.NewCSVReader (Csv.open [] None) [{| Name := "x" |}])
       (Csv.open Examples.two_batches None) "x"
     = (Some (Float64Col (List.concat [of_values [1%float]; of_values [2%float]])),
        None)
  /\ Len (List.concat [of_values [1%float]; of_values [2%float]])
     = Spec.total_rows Examples.two_batches.
Proof.
  split; [discriminate|].
  apply (csvreader_extract_concatenates
           (Csvreader.NewCSVReader (Csv.open [] None) [{| Name := "x" |}])
           Examples.two_batches [of_values [1%float]; of_values [2%float]] "x").
  - discriminate.
  - repeat constructor.
  - repeat constructor; exists 0%nat, []; split; reflexivity.
Defined.

End ExtractorClaims.

(** * Not-a-number and infinity in binary64 arithmetic *)

Module NaNFacts.

Open Scope float_scope.

Lemma Prim2SF_nan : Prim2SF nan = S754_nan.
Proof. reflexivity. Qed.

Lemma SFcompare_refl x : x <> S754_nan -> SFcompare x x = Some Eq.
Proof.
  destruct x as [s|s| |s m e]; simpl; try congruence; intros _.
  - destruct s; reflexivity.
  - rewrite Z.compare_refl.
    change (PosDef.Pos.compare_cont Eq m m) with (Pos.compare m m).
    rewrite Pos.compare_refl. destruct s; reflexivity.
Qed.

Lemma is_nan_eq v : is_nan v = true -> v = nan.
Proof.
  unfold is_nan. rewrite FloatAxioms.eqb_spec. unfold SFeqb. intros H.
  apply Prim2SF_inj. rewrite Prim2SF_nan.
  destruct (Prim2SF v) as [s|s| |s m e] eqn:E; try reflexivity;
    rewrite SFcompare_refl in H by discriminate; discriminate.
Qed.

Ltac nan_op := intros; apply Prim2SF_inj;
  rewrite ?add_spec, ?sub_spec, ?mul_spec, ?div_spec, ?sqrt_spec, ?abs_spec, ?Prim2SF_nan;
  unfold SF64add, SF64sub, SF64mul, SF64div, SF64sqrt, SFsub;
  try reflexivity;
  match goal with |- context [Prim2SF ?x] => destruct (Prim2SF x) as [[]|[]| |[] ? ?]; reflexivity end.

Lemma add_nan_l x : nan + x = nan. Proof. nan_op. Qed.
Lemma add_nan_r x : x + nan = nan. Proof. nan_op. Qed.
Lemma sub_nan_r x : x - nan = nan. Proof. nan_op. Qed.
Lemma mul_nan_l x : nan * x = nan. Proof. nan_op. Qed.
Lemma div_nan_l x : nan / x = nan. Proof. nan_op. Qed.
Lemma div_nan_r x : x / nan = nan. Proof. nan_op. Qed.
Lemma sqrt_nan : PrimFloat.sqrt nan = nan. Proof. reflexivity. Qed.
Lemma abs_nan : abs nan = nan. Proof. reflexivity. Qed.
Lemma ltb_nan_r t : (t <? nan) = false.
Proof. rewrite ltb_spec, Prim2SF_nan. unfold SFltb. destruct (Prim2SF t); reflexivity. Qed.
Lemma ltb_nan_l z : (nan <? z) = false.
Proof. rewrite ltb_spec, Prim2SF_nan. reflexivity. Qed.
Lemma ltb_infinity_l z : (infinity <? z) = false.
Proof.
  rewrite ltb_spec. change (Prim2SF infinity) with (S754_infinity false).
  unfold SFltb. destruct (Prim2SF z) as [s|s| |s m e]; simpl; try reflexivity.
  destruct s; reflexivity.
Qed.
Lemma eqb_nan_l x : (nan =? x) = false.
Proof. rewrite FloatAxioms.eqb_spec, Prim2SF_nan. reflexivity. Qed.

Lemma fold_add_nan (l : list float) : fold_left PrimFloat.add l nan = nan.
Proof. induction l as [|x l IH]; cbn; [reflexivity|]. now rewrite add_nan_l. Qed.

Lemma sum_with_nan (l : list float) :
  In nan l -> forall acc, fold_left PrimFloat.add l acc = nan.
Proof.
  induction l as [|x l IH]; intros Hin acc; [contradiction|].
  cbn. destruct Hin as [->|Hin].
  - rewrite add_nan_r. apply fold_add_nan.
  - now apply IH.
Qed.

Lemma squares_about_nan (l : list float) (acc : float) :
  l <> [] ->
  fold_left (fun a v => a + (v - nan) * (v - nan)) l acc = nan.
Proof.
  intros Hne. destruct l as [|x l]; [contradiction|]. cbn.
  rewrite sub_nan_r, mul_nan_l, add_nan_r. clear.
  induction l as [|y l IH]; cbn; [reflexivity|].
  now rewrite sub_nan_r, mul_nan_l, add_nan_r.
Qed.

End NaNFacts.

(** * More on the detector of src/super.go *)

Module DetectorExtras.

Import MainFacts NaNFacts.
Open Scope float_scope.

Lemma all_false_mask (p : slot float -> bool) (col : array float) :
  (forall x, p x = false) ->
  map (fun x => Slot true (valid x && p x)) col
  = map (fun _ => Slot true false) col.
Proof.
  intros Hp. apply map_ext. intros x. now rewrite Hp, andb_false_r.
Qed.

Lemma filter_none {A} (p : A -> bool) (l : list A) :
  (forall x, p x = false) -> filter p l = [].
Proof.
  intros Hp. induction l as [|x l IH]; cbn; [reflexivity|]. now rewrite Hp.
Qed.

Lemma statistics_with_nan (vs : list float) :
  In nan vs -> Spec.mean vs = nan /\ Spec.stddev vs = nan.
Proof.
  intros Hin.
  assert (Hm : Spec.mean vs = nan).
  { unfold Spec.mean, Spec.sum. rewrite (sum_with_nan vs Hin). apply div_nan_l. }
  split; [exact Hm|].
  unfold Spec.stddev, Spec.variance. rewrite Hm.
  rewrite squares_about_nan by (intros ->; contradiction).
  now rewrite div_nan_l.
Qed.

(** One non-null cell that holds NaN silences the detector: the sum, the
    mean, the deviation and every z-score are NaN, the deviation does not
    compare equal to zero, and no comparison with the threshold holds; the
    detector succeeds with an all-false mask and no anomaly, whatever the
    other rows and the threshold. *)
Theorem nan_cell_silences_detector (ctx : Context) (col : array float)
    (threshold : float) (i : nat) (v : float) :
  nth_error col i = Some (Slot true v) ->
  is_nan v = true ->
  Main.DetectAnomalies ctx col threshold
  = (Some (map (fun _ => Slot true false) col), Some [], None).
Proof.
  intros Hi Hnan. apply is_nan_eq in Hnan. subst v.
  assert (Hin : In nan (Spec.valid_values col)).
  { unfold Spec.valid_values. apply in_map_iff. exists (Slot true nan).
    split; [reflexivity|]. apply filter_In. split; [|reflexivity].
    eapply nth_error_In; eassumption. }
  destruct (statistics_with_nan _ Hin) as [Hm Hsd].
  rewrite DetectAnomalies_eq.
  destruct col as [|x0 col0]; [destruct i; discriminate|].
  cbv zeta. destruct (Spec.valid_values (x0 :: col0)) as [|v0 vs0]; [contradiction|].
  rewrite Hsd, eqb_nan_l.
  assert (Hz : forall z, (threshold <? Spec.zscore (v0 :: vs0) z) = false).
  { intros z. unfold Spec.zscore. now rewrite Hsd, div_nan_r, ltb_nan_r. }
  rewrite (all_false_mask (fun x => threshold <? Spec.zscore (v0 :: vs0) (raw x)))
    by (intros x; apply Hz).
  now rewrite (filter_none _ _ Hz).
Qed.

Lemma nan_cell_silences_detector_witness :
  nth_error (of_values [1; nan; 1000]) 1 = Some (Slot true nan)
  /\ is_nan nan = true
  /\ Main.DetectAnomalies Background (of_values [1; nan; 1000]) 0.5
     = (Some (map (fun _ => Slot true false) (of_values [1; nan; 1000])),
        Some [], None).
Proof.
  split; [reflexivity|]. split; [reflexivity|].
  apply (nan_cell_silences_detector Background (of_values [1; nan; 1000]) 0.5 1 nan);
    reflexivity.
Defined.

(** A threshold that is NaN or plus infinity flags nothing: on every
    column with a non-null row the detector succeeds with an all-false
    mask and no anomaly. *)
Theorem unreachable_threshold_flags_nothing (ctx : Context)
    (col : array float) (threshold : float) :
  Spec.valid_values col <> [] ->
  is_nan threshold = true \/ threshold = infinity ->
  Main.DetectAnomalies ctx col threshold
  = (Some (map (fun _ => Slot true false) col), Some [], None).
Proof.
  intros Hvs Ht.
  assert (Hz : forall z, (threshold <? z) = false).
  { intros z. destruct Ht as [Ht| ->].
    - apply is_nan_eq in Ht. subst. apply ltb_nan_l.
    - apply ltb_infinity_l. }
  rewrite DetectAnomalies_eq.
  destruct col as [|x0 col0]; [contradiction Hvs; reflexivity|].
  cbv zeta. destruct (Spec.valid_values (x0 :: col0)) as [|v0 vs0];
    [contradiction Hvs; reflexivity|].
  destruct (Spec.stddev (v0 :: vs0) =? 0); [reflexivity|].
  rewrite (all_false_mask (fun x => threshold <? Spec.zscore (v0 :: vs0) (raw x)))
    by (intros x; apply Hz).
  now rewrite (filter_none (fun v => threshold <? Spec.zscore (v0 :: vs0) v))
    by (intros v; apply Hz).
Qed.

Lemma unreachable_threshold_flags_nothing_witness :
  Spec.valid_values Examples.scenario1 <> []
  /\ (is_nan infinity = true \/ infinity = infinity)
  /\ Main.DetectAnomalies Background Examples.scenario1 infinity
     = (Some (map (fun _ => Slot true false) Examples.scenario1), Some [], None).
Proof.
  split; [discriminate|]. split; [right; reflexivity|].
  apply (unreachable_threshold_flags_nothing Background Examples.scenario1 infinity);
    [discriminate | right; reflexivity].
Defined.

Lemma flagged_row_count (p : float -> bool) (col : array float) :
  Spec.flagged (map (fun x => Slot true (valid x && p (raw x))) col)
  = List.length (filter p (Spec.valid_values col)).
Proof.
  unfold Spec.flagged, Spec.valid_values.
  induction col as [|x col IH]; cbn; [reflexivity|].
  destruct (valid x); cbn; [|exact IH].
  destruct (p (raw x)); cbn; now rewrite IH.
Qed.

Lemma flagged_none (col : array float) :
  Spec.flagged (map (fun _ : slot float => Slot true false) col) = 0%nat.
Proof. unfold Spec.flagged. induction col; cbn; auto. Qed.

(** The shape of what the detector returns.  It returns either an error
    alone or a mask and an anomaly list alone.  The mask has one row per
    row of the column and no null row; the anomaly list has no null row,
    one entry per set mask bit, at most one per non-null row of the
    column, and every entry is the value of a non-null row. *)
Theorem detection_shape (ctx : Context) (col : array float) (threshold : float) :
  match Main.DetectAnomalies ctx col threshold with
  | (Some mask, Some anomalies, None) =>
      Len mask = Len col
      /\ Forall (fun s => valid s = true) mask
      /\ Forall (fun s => valid s = true) anomalies
      /\ Len anomalies = Spec.flagged mask
      /\ (Len anomalies <= List.length (Spec.valid_values col))%nat
      /\ incl (map raw anomalies) (Spec.valid_values col)
  | (None, None, Some _) => True
  | _ => False
  end.
Proof.
  rewrite DetectAnomalies_eq.
  destruct col as [|x0 col0]; [exact I|].
  set (col := x0 :: col0). cbv zeta.
  destruct (Spec.valid_values col) as [|v0 vs0] eqn:Hv; [exact I|].
  set (vs := v0 :: vs0) in *.
  destruct (Spec.stddev vs =? 0).
  - split; [apply length_map|].
    split; [apply Forall_map, Forall_forall; reflexivity|].
    split; [constructor|].
    split; [now rewrite flagged_none|].
    split; [cbn; lia|]. intros z [].
  - split; [apply length_map|].
    split; [apply Forall_map, Forall_forall; reflexivity|].
    split; [apply Forall_map, Forall_forall; reflexivity|].
    pose proof (flagged_row_count (fun v => threshold <? Spec.zscore vs v) col) as Hc.
    rewrite Hv in Hc.
    unfold Len, of_values. rewrite length_map.
    split; [symmetry; exact Hc|].
    split; [apply filter_length_le|].
    rewrite map_map, map_id. intros z Hz. now apply filter_In in Hz.
Qed.

End DetectorExtras.

(** * More on the extractors of src/super.go and part_005 *)

Module ExtractorExtras.

Import ExtractorFacts.

Lemma find_column_from (fields : list Field) (name : string) :
  forall i : Z,
    ((Main.find_column fields name i = -1)%Z
     /\ Forall (fun f => Name f <> name) fields)
    \/ (exists k f,
          Main.find_column fields name i = (i + Z.of_nat k)%Z
          /\ nth_error fields k = Some f
          /\ Name f = name
          /\ Forall (fun f => Name f <> name) (firstn k fields)).
Proof.
  induction fields as [|f fields IH]; intros i; cbn.
  - left. split; [reflexivity|constructor].
  - destruct (String.eqb (Name f) name) eqn:E.
    + right. exists 0%nat, f. apply String.eqb_eq in E.
      repeat split; [lia| assumption | constructor].
    + apply String.eqb_neq in E.
      destruct (IH (i + 1)%Z) as [[H1 H2]|(k & g & H1 & H2 & H3 & H4)].
      * left. split; [exact H1|]. now constructor.
      * right. exists (S k), g. repeat split; try assumption; [lia|].
        cbn. now constructor.
Qed.

(** The column lookup of [ReadSingleColumn] (src/super.go): it returns -1
    exactly when no field of the schema has the name; otherwise it returns
    the position of the first field with the name, which is a position of
    the schema. *)
Theorem find_column_first_match (fields : list Field) (name : string) :
  ((Main.find_column fields name 0 = -1)%Z
   /\ Forall (fun f => Name f <> name) fields)
  \/ (exists k f,
        Main.find_column fields name 0 = Z.of_nat k
        /\ (k < List.length fields)%nat
        /\ nth_error fields k = Some f
        /\ Name f = name
        /\ Forall (fun f => Name f <> name) (firstn k fields)).
Proof.
  destruct (find_column_from fields name 0) as [H|(k & f & H1 & H2 & H3 & H4)].
  - left. exact H.
  - right. exists k, f. repeat split; try assumption.
    apply nth_error_Some. congruence.
Qed.

Lemma Main_collect_chunks_eq (records : list RecordBatch) (idx : Z) :
  forall acc,
    Main.collect_chunks records idx acc
    = if forallb (fun b => (idx <? Z.of_nat (NumCols b))%Z) records
      then (acc ++ map (fun b => nth (Z.to_nat idx) (Columns b) (Float64Col []))
                     records, None)
      else ([], Some (ErrColumnIndexOutOfRange idx)).
Proof.
  induction records as [|b records IH]; intros acc; cbn.
  - now rewrite app_nil_r.
  - destruct (idx >=? Z.of_nat (NumCols b))%Z eqn:E;
      destruct (idx <? Z.of_nat (NumCols b))%Z eqn:E'; try lia; cbn.
    + reflexivity.
    + rewrite IH. destruct (forallb _ records); [|reflexivity].
      now rewrite <- app_assoc.
Qed.

(** Every outcome of [ReadSingleColumn] (src/super.go), in the order the
    code tests them: a read failure, then an input without a batch, then a
    name the schema does not have, then a batch with too few columns, and
    only then the column of the first batch.  An input without a batch is
    reported as such even when the name is not in the schema. *)
Theorem super_extract_outcomes (s : Schema) (batches : list RecordBatch)
    (failure : option error) (name : string) :
  fst (Main.ReadSingleColumn
         {| Main.schema := s; Main.reader := Csv.open batches failure |} name)
  = match failure with
    | Some e => (None, Some (ErrReadingCSV e))
    | None =>
        match batches with
        | [] => (None, Some ErrNoRecords)
        | b0 :: _ =>
            if (Main.find_column s name 0 =? -1)%Z
            then (None, Some (ErrColumnNotFound name))
            else if forallb
                      (fun b => (Main.find_column s name 0 <? Z.of_nat (NumCols b))%Z)
                      batches
            then (Some (nth (Z.to_nat (Main.find_column s name 0)) (Columns b0)
                          (Float64Col [])), None)
            else (None, Some (ErrColumnIndexOutOfRange (Main.find_column s name 0)))
        end
    end.
Proof.
  unfold Main.ReadSingleColumn.
  pose proof (ReadAll_open s batches failure) as Hread.
  destruct (Main.ReadAll _) as [[records err] cr']. cbn in Hread.
  destruct failure as [e|]; injection Hread as -> ->; [reflexivity|].
  destruct batches as [|b0 rest]; [reflexivity|].
  cbn [List.length Nat.eqb Main.schema].
  destruct (Main.find_column s name 0 =? -1)%Z; [reflexivity|].
  rewrite Main_collect_chunks_eq.
  destruct (forallb _ (b0 :: rest)); [|reflexivity].
  cbn. destruct (List.length (map _ rest) =? 0)%nat; reflexivity.
Qed.

Lemma ReadAll_state (s : Schema) (batches : list RecordBatch)
    (failure : option error) :
  snd (Main.ReadAll {| Main.schema := s; Main.reader := Csv.open batches failure |})
  = {| Main.schema := s;
       Main.reader := {| Csv.cur := None; Csv.pending := [];
                         Csv.failure := None; Csv.err := failure |} |}.
Proof.
  unfold Main.ReadAll, Csv.open. cbn [Main.reader Csv.pending Main.schema].
  rewrite ReadAll_loop_drains by lia. cbn.
  destruct failure; reflexivity.
Qed.

Lemma ReadSingleColumn_state (cr : Main.CSVReader) (name : string) :
  snd (Main.ReadSingleColumn cr name) = snd (Main.ReadAll cr).
Proof.
  unfold Main.ReadSingleColumn.
  destruct (Main.ReadAll cr) as [[records err] cr'].
  destruct err; [reflexivity|].
  destruct (List.length records =? 0)%nat; [reflexivity|].
  destruct (_ =? -1)%Z; [reflexivity|].
  destruct (Main.collect_chunks _ _ _) as [chunks [e|]]; [reflexivity|].
  destruct (List.length chunks =? 1)%nat; reflexivity.
Qed.

Lemma ReadAll_exhausted (s : Schema) (e : option error) :
  fst (Main.ReadAll
         {| Main.schema := s;
            Main.reader := {| Csv.cur := None; Csv.pending := [];
                              Csv.failure := None; Csv.err := e |} |})
  = match e with
    | Some e' => ([], Some (ErrReadingCSV e'))
    | None => ([], None)
    end.
Proof. destruct e; reflexivity. Qed.

(** [ReadAll] of src/super.go and what it leaves behind.  It returns every
    batch of the input in file order, or no batch and the wrapped error
    when the input fails.  The reader is then spent: a second [ReadAll]
    returns no batch, and after [ReadSingleColumn] a second
    [ReadSingleColumn] cannot succeed, for any column name: on an input
    that ended cleanly it reports that there are no records, on an input
    that failed it reports the failure again. *)
Theorem super_reader_is_single_use (s : Schema) (batches : list RecordBatch)
    (failure : option error) (name again : string) :
  fst (Main.ReadAll {| Main.schema := s; Main.reader := Csv.open batches failure |})
  = match failure with
    | Some e => ([], Some (ErrReadingCSV e))
    | None => (batches, None)
    end
  /\ fst (Main.ReadAll
           (snd (Main.ReadAll
                   {| Main.schema := s; Main.reader := Csv.open batches failure |})))
     = match failure with
       | Some e => ([], Some (ErrReadingCSV e))
       | None => ([], None)
       end
  /\ fst (Main.ReadSingleColumn
           (snd (Main.ReadSingleColumn
                   {| Main.schema := s; Main.reader := Csv.open batches failure |}
                   name))
           again)
     = match failure with
       | Some e => (None, Some (ErrReadingCSV e))
       | None => (None, Some ErrNoRecords)
       end.
Proof.
  split; [apply ReadAll_open|].
  rewrite ReadSingleColumn_state, ReadAll_state. split.
  - apply ReadAll_exhausted.
  - unfold Main.ReadSingleColumn.
    pose proof (ReadAll_exhausted s failure) as Hread.
    destruct (Main.ReadAll _) as [[records err] cr']. cbn in Hread.
    destruct failure; injection Hread as -> ->; reflexivity.
Qed.

Lemma Csvreader_collect_chunks_eq (name : string) (recs : list RecordBatch) :
  forall acc,
    Csvreader.collect_chunks recs name acc
    = if forallb
           (fun b => match Csvreader.FieldIndices (RecSchema b) name with
                     | [] => false
                     | _ :: _ => true
                     end) recs
      then (acc ++ map (fun b =>
                          nth (hd 0%nat (Csvreader.FieldIndices (RecSchema b) name))
                            (Columns b) (Float64Col [])) recs,
            None)
      else ([], Some (ErrColumnNotFound name)).
Proof.
  induction recs as [|b recs IH]; intros acc; cbn.
  - now rewrite app_nil_r.
  - destruct (Csvreader.FieldIndices (RecSchema b) name) as [|i more];
      [reflexivity|]. cbn.
    rewrite IH. destruct (forallb _ recs); [|reflexivity].
    now rewrite <- app_assoc.
Qed.

(** Every outcome of [ReadSingleColumn] (part_005), in the order the code
    meets them: a batch whose schema lacks the name ends the call with the
    column-not-found error, even when the input fails later on; otherwise
    a failed input gives the read error; otherwise an input without a
    batch gives the no-data error, whatever the name; otherwise the result
    is that of concatenating, in batch order, each batch's first column
    with the name. *)
Theorem csvreader_extract_outcomes (cr : Csvreader.CSVReader)
    (batches : list RecordBatch) (failure : option error) (name : string) :
  Csvreader.ReadSingleColumn cr (Csv.open batches failure) name
  = if forallb
         (fun b => match Csvreader.FieldIndices (RecSchema b) name with
                   | [] => false
                   | _ :: _ => true
                   end) batches
    then
      match failure with
      | Some e => (None, Some (ErrReadingCSV e))
      | None =>
          match batches with
          | [] => (None, Some (ErrNoData name))
          | _ :: _ =>
              match ArrayLib.Concatenate
                      (map (fun b =>
                              nth (hd 0%nat
                                     (Csvreader.FieldIndices (RecSchema b) name))
                                (Columns b) (Float64Col [])) batches) with
              | (_, Some e) => (None, Some e)
              | (concat, None) => (concat, None)
              end
          end
      end
    else (None, Some (ErrColumnNotFound name)).
Proof.
  unfold Csvreader.ReadSingleColumn.
  rewrite Chan_open, Csvreader_collect_chunks_eq.
  destruct (forallb _ batches); [|reflexivity].
  destruct failure; [reflexivity|].
  destruct batches; reflexivity.
Qed.

Lemma find_column_FieldIndices (fields : list Field) (name : string) :
  forall i : nat,
    Main.find_column fields name (Z.of_nat i)
    = match Csvreader.FieldIndices_from fields name i with
      | [] => (-1)%Z
      | k :: _ => Z.of_nat k
      end.
Proof.
  induction fields as [|f fields IH]; intros i; cbn; [reflexivity|].
  destruct (String.eqb (Name f) name); [reflexivity|].
  rewrite <- IH. f_equal. lia.
Qed.

(** On an input of one batch the two extractors agree: when the name is
    found in the batch's schema at a position the batch has a column for,
    [ReadSingleColumn] of src/super.go and of part_005 both return that
    column, unchanged. *)
Theorem extractors_agree_on_one_batch (cr : Csvreader.CSVReader)
    (b : RecordBatch) (name : string) :
  (0 <= Main.find_column (RecSchema b) name 0)%Z ->
  (Main.find_column (RecSchema b) name 0 < Z.of_nat (NumCols b))%Z ->
  fst (Main.ReadSingleColumn
         {| Main.schema := RecSchema b; Main.reader := Csv.open [b] None |} name)
  = (Some (nth (Z.to_nat (Main.find_column (RecSchema b) name 0)) (Columns b)
             (Float64Col [])), None)
  /\ Csvreader.ReadSingleColumn cr (Csv.open [b] None) name
     = (Some (nth (Z.to_nat (Main.find_column (RecSchema b) name 0)) (Columns b)
                (Float64Col [])), None).
Proof.
  intros H0 Hlt. split.
  - unfold Main.ReadSingleColumn.
    pose proof (ReadAll_open (RecSchema b) [b] None) as Hread.
    destruct (Main.ReadAll _) as [[records err] cr']. cbn in Hread.
    injection Hread as -> ->.
    cbn [List.length Nat.eqb Main.schema].
    destruct (Main.find_column (RecSchema b) name 0 =? -1)%Z eqn:E; [lia|].
    assert (Hr : Forall (fun b0 => (Main.find_column (RecSchema b) name 0
                                    < Z.of_nat (NumCols b0))%Z) [b])
      by (constructor; [exact Hlt|constructor]).
    rewrite (Main_collect_chunks_in_range [b] _ Hr []).
    reflexivity.
  - unfold Csvreader.ReadSingleColumn.
    rewrite Chan_open. cbn.
    pose proof (find_column_FieldIndices (RecSchema b) name 0) as Hf.
    change (Z.of_nat 0) with 0%Z in Hf.
    unfold Csvreader.FieldIndices.
    destruct (Csvreader.FieldIndices_from (RecSchema b) name 0) as [|k more];
      [lia|].
    rewrite Hf, Nat2Z.id. destruct (nth k (Columns b) (Float64Col [])); reflexivity.
Qed.

Lemma extractors_agree_on_one_batch_witness :
  (0 <= Main.find_column (RecSchema (Examples.batch "x" [1%float; 2%float])) "x" 0)%Z
  /\ (Main.find_column (RecSchema (Examples.batch "x" [1%float; 2%float])) "x" 0
      < Z.of_nat (NumCols (Examples.batch "x" [1%float; 2%float])))%Z
  /\ fst (Main.ReadSingleColumn
            {| Main.schema := RecSchema (Examples.batch "x" [1%float; 2%float]);
               Main.reader :=
                 Csv.open [Examples.batch "x" [1%float; 2%float]] None |} "x")
     = (Some (nth (Z.to_nat
                     (Main.find_column
                        (RecSchema (Examples.batch "x" [1%float; 2%float])) "x" 0))
                (Columns (Examples.batch "x" [1%float; 2%float]))
                (Float64Col [])), None)
  /\ Csvreader.ReadSingleColumn
       (Csvreader.NewCSVReader (Csv.open [] None) [{| Name := "x" |}])
       (Csv.open [Examples.batch "x" [1%float; 2%float]] None) "x"
     = (Some (nth (Z.to_nat
                     (Main.find_column
                        (RecSchema (Examples.batch "x" [1%float; 2%float])) "x" 0))
                (Columns (Examples.batch "x" [1%float; 2%float]))
                (Float64Col [])), None).
Proof.
  assert (H0 : (0 <= Main.find_column
                       (RecSchema (Examples.batch "x" [1%float; 2%float])) "x" 0)%Z)
    by (cbn; lia).
  assert (H1 : (Main.find_column
                  (RecSchema (Examples.batch "x" [1%float; 2%float])) "x" 0
                < Z.of_nat (NumCols (Examples.batch "x" [1%float; 2%float])))%Z)
    by (cbn; lia).
  split; [exact H0|]. split; [exact H1|].
  exact (extractors_agree_on_one_batch
           (Csvreader.NewCSVReader (Csv.open [] None) [{| Name := "x" |}])
           (Examples.batch "x" [1%float; 2%float]) "x" H0 H1).
Defined.

End ExtractorExtras.

(** * More on the kernel detectors of part_008 and part_007 *)

Module VariantExtras.

Import MainFacts VariantFacts.
Open Scope float_scope.

(** The kernel detectors have no guard for columns without values: on a
    Float64 column with no non-null row, empty or all null, they succeed
    with one and the same result.  The mask and the z-scores have one row
    per row of the column and every row of both is null; the value cell of
    each mask row, which a caller that does not ask [IsNull] reads, holds
    [0 >= threshold]. *)
Theorem kernel_detectors_accept_columns_without_values
    (zd : Compute.ZeroDivisor) (ctx : Context) (col : array float)
    (threshold : float) :
  ctx_err ctx = None ->
  Spec.valid_values col = [] ->
  exists res,
    Supercharged.DetectAnomalies zd ctx (Float64Col col) threshold
    = (Some res, None)
    /\ SuperchargedSqrt.DetectAnomalies zd ctx (Float64Col col) threshold
       = (Some res, None)
    /\ Len (Supercharged.Mask res) = Len col
    /\ Len (Supercharged.Zscore res) = Len col
    /\ forall i,
         (i < Len col)%nat ->
         IsNull (Supercharged.Mask res) i = true
         /\ IsNull (Supercharged.Zscore res) i = true
         /\ Value (Supercharged.Mask res) i = (threshold <=? 0).
Proof.
  intros Hctx Hv.
  destruct (no_valid_row col Hv) as [He Hm].
  unfold Supercharged.DetectAnomalies, SuperchargedSqrt.DetectAnomalies,
    Compute.sqrt.
  rewrite Hctx, computeMeanAndVariance_eq, Hv.
  rewrite (detect_with_eq zd ctx col _ _ threshold Hctx), He, andb_false_r.
  replace (match zd with
           | Compute.IEEEQuotient => false
           | Compute.RaisesError => false
           end) with false by (destruct zd; reflexivity).
  eexists. split; [reflexivity|]. split; [reflexivity|].
  cbn [Supercharged.Mask Supercharged.Zscore].
  rewrite (Hm float _). unfold Len. rewrite !length_map.
  split; [reflexivity|]. split; [reflexivity|].
  intros i Hi. unfold IsNull, Value. rewrite !nth_error_map.
  destruct (nth_error col i) as [x|] eqn:Hx.
  - assert (Hvx : valid x = false)
      by (apply (no_valid_in col He); eapply nth_error_In; eassumption).
    cbn. rewrite Hvx. repeat split; reflexivity.
  - apply nth_error_None in Hx. unfold Len in Hi. lia.
Qed.

Lemma kernel_detectors_accept_columns_without_values_witness :
  ctx_err Background = None
  /\ Spec.valid_values (of_options [None; None]) = []
  /\ exists res,
       Supercharged.DetectAnomalies Compute.RaisesError Background
         (Float64Col (of_options [None; None])) 0
       = (Some res, None)
       /\ SuperchargedSqrt.DetectAnomalies Compute.RaisesError Background
            (Float64Col (of_options [None; None])) 0
          = (Some res, None)
       /\ Len (Supercharged.Mask res) = Len (of_options (A := float) [None; None])
       /\ Len (Supercharged.Zscore res) = Len (of_options (A := float) [None; None])
       /\ forall i,
            (i < Len (of_options (A := float) [None; None]))%nat ->
            IsNull (Supercharged.Mask res) i = true
            /\ IsNull (Supercharged.Zscore res) i = true
            /\ Value (Supercharged.Mask res) i = (0 <=? 0).
Proof.
  split; [reflexivity|]. split; [reflexivity|].
  apply (kernel_detectors_accept_columns_without_values Compute.RaisesError
           Background (of_options [None; None]) 0); reflexivity.
Defined.

(** [computeMeanAndVariance] against the direct detector: on a column with
    a non-null row it returns the mean the direct detector computes and a
    variance whose square root is the direct detector's deviation; on a
    column without one it returns (0, 0). *)
Theorem kernel_statistics_are_the_direct_ones (col : array float) :
  match Spec.valid_values col with
  | [] => Supercharged.computeMeanAndVariance col = (0, 0)
  | _ :: _ =>
      fst (Supercharged.computeMeanAndVariance col) = Main.mean_of col
      /\ PrimFloat.sqrt (snd (Supercharged.computeMeanAndVariance col))
         = Main.stddev_of col
  end.
Proof.
  rewrite computeMeanAndVariance_eq, mean_of_eq, stddev_of_eq.
  destruct (Spec.valid_values col); [reflexivity|]. split; reflexivity.
Qed.

(** What a successful kernel detection looks like.  The mask and the
    z-scores have one row per row of the column.  At a non-null row the
    z-score is the signed quotient [(v - mean) / sqrt variance] of
    [computeMeanAndVariance], and the mask bit says whether its absolute
    value is at least the threshold.  A null row of the column is null in
    both; the value cell of its mask row holds [0 >= threshold]. *)
Theorem kernel_detection_shape (zd : Compute.ZeroDivisor) (ctx : Context)
    (col : array float) (threshold : float) (res : Supercharged.Result) :
  ctx_err ctx = None ->
  Supercharged.DetectAnomalies zd ctx (Float64Col col) threshold = (Some res, None) ->
  Len (Supercharged.Mask res) = Len col
  /\ Len (Supercharged.Zscore res) = Len col
  /\ forall i x,
       nth_error col i = Some x ->
       if valid x
       then
         nth_error (Supercharged.Zscore res) i
         = Some (Slot true
                   ((raw x - fst (Supercharged.computeMeanAndVariance col))
                    / PrimFloat.sqrt (snd (Supercharged.computeMeanAndVariance col))))
         /\ nth_error (Supercharged.Mask res) i
            = Some (Slot true (threshold <=? abs (Value (Supercharged.Zscore res) i)))
       else
         IsNull (Supercharged.Zscore res) i = true
         /\ IsNull (Supercharged.Mask res) i = true
         /\ Value (Supercharged.Mask res) i = (threshold <=? 0).
Proof.
  intros Hctx. unfold Supercharged.DetectAnomalies.
  destruct (Supercharged.computeMeanAndVariance col) as [m var].
  rewrite (detect_with_eq zd ctx col _ _ threshold Hctx). cbn [fst snd].
  destruct (match zd with
            | Compute.IEEEQuotient => false
            | Compute.RaisesError => _
            end); [discriminate|].
  intros Hres. injection Hres as <-. cbn [Supercharged.Mask Supercharged.Zscore].
  unfold Compute.map_valid, Len. rewrite !length_map.
  split; [reflexivity|]. split; [reflexivity|].
  intros i x Hi. unfold Value, IsNull. rewrite !nth_error_map, Hi. cbn.
  destruct (valid x); repeat split; reflexivity.
Qed.

Lemma kernel_detection_shape_witness :
  ctx_err Background = None
  /\ exists res,
       Supercharged.DetectAnomalies Compute.IEEEQuotient Background
         (Float64Col (of_options [Some 0; None; Some 2])) 0
       = (Some res, None)
       /\ Supercharged.Mask res
          = [Slot true true; Slot false true; Slot true true]
       /\ Len (Supercharged.Mask res) = 3%nat
       /\ Len (Supercharged.Zscore res) = 3%nat
       /\ IsNull (Supercharged.Zscore res) 1 = true
       /\ IsNull (Supercharged.Mask res) 1 = true
       /\ Value (Supercharged.Mask res) 1 = (0 <=? 0).
Proof.
  split; [reflexivity|].
  eexists. split; [vm_compute; reflexivity|]. split; [reflexivity|].
  match goal with
  | |- Len (Supercharged.Mask ?r) = _ /\ _ =>
      destruct (kernel_detection_shape Compute.IEEEQuotient Background
                  (of_options [Some 0; None; Some 2]) 0 r eq_refl)
        as (H1 & H2 & H3); [vm_compute; reflexivity|]
  end.
  split; [exact H1|]. split; [exact H2|].
  exact (H3 1%nat (Slot false 0) eq_refl).
Defined.

End VariantExtras.

(** * The analyze command of part_002 *)

Module CmdExtras.

Import LoopFacts MainFacts VariantFacts VariantExtras.
Open Scope float_scope.

(** The loop of lines 67-71 over a mask and z-scores given row by row: it
    keeps the z-score cell of every row whose mask cell is set, null or
    not. *)
Lemma collect_anomalies_eq (M : slot float -> slot bool)
    (Z : slot float -> slot float) (col : array float) :
  Cmd.collect_anomalies
    {| Supercharged.Mask := map M col; Supercharged.Zscore := map Z col |}
  = map (fun x => raw (Z x)) (filter (fun x => raw (M x)) col).
Proof.
  unfold Cmd.collect_anomalies. cbn [Supercharged.Mask Supercharged.Zscore].
  unfold Len. rewrite length_map.
  rewrite for_range_nth_error with
    (l := col)
    (f := fun (x : slot float) (acc : list float) =>
            if raw (M x) then acc ++ [raw (Z x)] else acc).
  - exact (fold_append_if (fun x => raw (M x)) (fun x => raw (Z x)) col []).
  - intros i x acc Hi. unfold Value. now rewrite !nth_error_map, Hi.
Qed.

(** What the analyze command reports.  When the flags are set, the file
    opens, the schema is inferred, the file rewinds and the extractor
    returns a Float64 column whose deviation is not zero, the command
    prints the length of the column as the count and, as the anomalies, in
    row order, the signed z-score [(v - mean) / stddev] (not the value) of
    every non-null row whose z-score is at least the threshold; the loop
    reads the mask without asking [IsNull], so when the threshold is at
    most zero every null row is reported as well, with the zero of its
    z-score cell.  With the JSON flag the command prints nothing and fails
    when one of the reported z-scores is infinite. *)
Theorem analyze_reports_signed_zscores (zd : Compute.ZeroDivisor)
    (inv : Cmd.Invocation) (col : array float) :
  Cmd.file_flag inv <> ""%string ->
  Cmd.column_flag inv <> ""%string ->
  Cmd.open_err inv = None ->
  Cmd.infer_err inv = None ->
  Cmd.seek_err inv = None ->
  Csvreader.ReadSingleColumn
    (Csvreader.NewCSVReader (Cmd.parsed inv) (Cmd.inferred inv))
    (Cmd.parsed inv) (Cmd.column_flag inv)
  = (Some (Float64Col col), None) ->
  (Spec.stddev (Spec.valid_values col) =? 0) = false ->
  Cmd.RunE zd inv
  = Cmd.report (Cmd.json_flag inv)
      {| Cmd.Count := Z.of_nat (Len col);
         Cmd.Anomalies :=
           map (fun x =>
                  if valid x
                  then (raw x - Spec.mean (Spec.valid_values col))
                       / Spec.stddev (Spec.valid_values col)
                  else 0)
             (filter (fun x =>
                        if valid x
                        then Cmd.threshold_flag inv
                             <=? Spec.zscore (Spec.valid_values col) (raw x)
                        else Cmd.threshold_flag inv <=? 0)
                col) |}.
Proof.
  intros Hfile Hcolumn Hopen Hinfer Hseek Hread Hsd.
  unfold Cmd.RunE.
  apply String.eqb_neq in Hfile, Hcolumn.
  rewrite Hfile, Hcolumn, Hopen, Hinfer, Hseek, Hread.
  unfold Supercharged.DetectAnomalies.
  rewrite computeMeanAndVariance_eq.
  destruct (Spec.valid_values col) as [|v0 vs0] eqn:Hv.
  { destruct (no_valid_row col Hv) as [He _].
    rewrite (detect_with_eq zd Background col _ _ _ eq_refl), He, andb_false_r.
    replace (match zd with
             | Compute.IEEEQuotient => false
             | Compute.RaisesError => false
             end) with false by (destruct zd; reflexivity).
    unfold Compute.map_valid. rewrite collect_anomalies_eq.
    pose proof (no_valid_in col He) as Hnull.
    do 2 f_equal. apply map_filter_ext_in.
    - intros x Hx. now rewrite (Hnull x Hx).
    - intros x Hx. now rewrite (Hnull x Hx). }
  rewrite <- Hv in *.
  change (PrimFloat.sqrt (Spec.variance (Spec.valid_values col)))
    with (Spec.stddev (Spec.valid_values col)).
  rewrite (detect_with_eq zd Background col _ _ _ eq_refl), Hsd.
  replace (match zd with
           | Compute.IEEEQuotient => false
           | Compute.RaisesError => false && existsb valid col
           end) with false by (destruct zd; reflexivity).
  unfold Compute.map_valid. rewrite collect_anomalies_eq.
  do 2 f_equal. apply map_filter_ext_in.
  - intros x _. destruct (valid x); cbn [raw]; [|reflexivity].
    unfold Spec.zscore, Spec.stddev in *.
    now rewrite (FloatFacts.abs_div_sqrt _ _ Hsd).
  - intros x _. now destruct (valid x).
Qed.

Lemma analyze_reports_signed_zscores_witness :
  Cmd.RunE Compute.RaisesError CmdExamples.null_row_run
  = (Some (Cmd.PrintedJSON {| Cmd.Count := 3; Cmd.Anomalies := [-1; 0; 1] |}),
     None).
Proof.
  rewrite (analyze_reports_signed_zscores Compute.RaisesError
             CmdExamples.null_row_run (of_options [Some 1; None; Some 3]));
    try discriminate; try reflexivity.
Defined.

Lemma extract_returns_one (cr : Csvreader.CSVReader) (r : Csv.Reader)
    (name : string) :
  match Csvreader.ReadSingleColumn cr r name with
  | (Some _, None) | (None, Some _) => True
  | _ => False
  end.
Proof.
  unfold Csvreader.ReadSingleColumn.
  destruct (Csvreader.Chan _) as [recs errs].
  destruct (Csvreader.collect_chunks recs name []) as [chunks [e|]]; [exact I|].
  destruct errs; [exact I|].
  destruct (List.length chunks =? 0)%nat; [exact I|].
  unfold ArrayLib.Concatenate. destruct chunks as [|c rest]; [exact I|].
  destruct (ArrayLib.concat_into c rest); exact I.
Qed.

Lemma detect_returns_one (zd : Compute.ZeroDivisor) (ctx : Context)
    (col : Column) (t : float) :
  match Supercharged.DetectAnomalies zd ctx col t with
  | (Some _, None) | (None, Some _) => True
  | _ => False
  end.
Proof.
  unfold Supercharged.DetectAnomalies.
  destruct col as [a|a|a]; try exact I.
  destruct (Supercharged.computeMeanAndVariance a) as [m var].
  destruct (ctx_err ctx) as [e|] eqn:Hctx.
  - unfold Supercharged.detect_with, Compute.subtract. now rewrite Hctx.
  - rewrite (detect_with_eq zd ctx a _ _ t Hctx).
    destruct (match zd with
              | Compute.IEEEQuotient => false
              | Compute.RaisesError => _
              end); exact I.
Qed.

(** The analyze command never ends silently: every run either prints a
    report and returns no error, or prints nothing and returns an error. *)
Theorem analyze_prints_or_fails (zd : Compute.ZeroDivisor) (inv : Cmd.Invocation) :
  match Cmd.RunE zd inv with
  | (Some _, None) | (None, Some _) => True
  | _ => False
  end.
Proof.
  unfold Cmd.RunE.
  destruct (String.eqb (Cmd.file_flag inv) ""); [exact I|].
  destruct (String.eqb (Cmd.column_flag inv) ""); [exact I|].
  destruct (Cmd.open_err inv); [exact I|].
  destruct (Cmd.infer_err inv); [exact I|].
  destruct (Cmd.seek_err inv); [exact I|].
  pose proof (extract_returns_one
                (Csvreader.NewCSVReader (Cmd.parsed inv) (Cmd.inferred inv))
                (Cmd.parsed inv) (Cmd.column_flag inv)) as Hx.
  destruct (Csvreader.ReadSingleColumn _ _ _) as [[arr|] [e|]];
    try exact I; try contradiction.
  destruct arr as [colArr|a|a]; try exact I.
  pose proof (detect_returns_one zd Background (Float64Col colArr)
                (Cmd.threshold_flag inv)) as Hd.
  destruct (Supercharged.DetectAnomalies _ _ _ _) as [[res|] [e|]];
    try exact I; try contradiction.
  unfold Cmd.report.
  destruct (Cmd.json_flag inv); [|exact I].
  destruct (existsb Cmd.json_unsupported _); exact I.
Qed.

End CmdExtras.
